(** * Webhook receivers of vex-shopify: a shallow embedding

    The repository holds Next.js route handlers that receive Shopify
    webhooks, check an HMAC signature, scan the line items of the cart or
    order for a trigger, and then call Shopify's GraphQL API to add an item.

    The handlers are embedded as Rocq functions:
    - JavaScript values coming out of [JSON.parse] are the inductive [value];
    - code that can throw returns a [result];
    - code that calls [fetch] runs in the monad [IO], whose state is the list
      of outbound requests issued so far and which keeps that list when an
      exception is thrown (a request that was sent stays sent);
    - [process.env] is the record [process_env]; the module-level constants
      of each route are functions of it.

    Strings are Rocq strings, one [ascii] per UTF-16 code unit; only code
    units up to 255 are represented (which is exactly the range of an HTTP
    header value).  Numbers are the integers [Z] whose decimal rendering is
    what [String(n)] gives (the safe integers). *)

From Stdlib Require Import ZArith List String Ascii Bool Lia DecimalString.
Import ListNotations.
Local Open Scope string_scope.

(** ** Exceptions and results *)

Inductive exn : Type :=
| TypeError        (* property read on null/undefined, call of a non-function *)
| SyntaxError      (* JSON.parse / response.json() on malformed text *)
| RangeError       (* crypto.timingSafeEqual on buffers of different length *)
| FetchError       (* fetch() rejected: DNS, connection, TLS ... *)
| Error (message : string).   (* [throw new Error(message)] in the source *)

Inductive result (A : Type) : Type :=
| Ok (a : A)
| Throw (e : exn).
Arguments Ok {A} a.
Arguments Throw {A} e.

Definition rbind {A B} (r : result A) (k : A -> result B) : result B :=
  match r with
  | Ok a => k a
  | Throw e => Throw e
  end.

Declare Scope result_scope.
Delimit Scope result_scope with result.
Notation "'let?' x ':=' r 'in' k" := (rbind r (fun x => k))
  (at level 10, x name, r at level 100, k at level 200) : result_scope.

(** ** JavaScript values *)

#[local] Set Warnings "-register-all".

(** An object is the list of its own properties, each key once, in the
    order of the JSON text; [lookup] reads the first binding of a key. *)
Inductive value : Type :=
| VUndefined
| VNull
| VBool (b : bool)
| VNum (n : Z)
| VStr (s : string)
| VArr (elems : list value)
| VObj (fields : list (string * value)).

(** [String(n)] for an integer number. *)
Definition number_to_string (n : Z) : string :=
  NilZero.string_of_int (Z.to_int n).

(** [String(v)], ECMAScript's ToString: an array is the comma-joined
    rendering of its elements, with null and undefined rendered empty. *)
Fixpoint ToString (v : value) : string :=
  match v with
  | VUndefined => "undefined"
  | VNull => "null"
  | VBool true => "true"
  | VBool false => "false"
  | VNum n => number_to_string n
  | VStr s => s
  | VArr xs =>
      String.concat ","
        (map (fun x => match x with
                       | VUndefined | VNull => ""
                       | _ => ToString x
                       end) xs)
  | VObj _ => "[object Object]"
  end.

(** ToBoolean: what [!v], [v && _], [v || _] and [if (v)] test. *)
Definition truthy (v : value) : bool :=
  match v with
  | VUndefined | VNull => false
  | VBool b => b
  | VNum n => negb (n =? 0)%Z
  | VStr s => negb (s =? "")
  | VArr _ | VObj _ => true
  end.

(** [a || b] on values. *)
Definition js_or (a b : value) : value := if truthy a then a else b.

Definition isArray (v : value) : bool :=
  match v with VArr _ => true | _ => false end.

Fixpoint lookup (p : string) (fields : list (string * value)) : value :=
  match fields with
  | [] => VUndefined
  | (k, v) :: rest => if k =? p then v else lookup p rest
  end.

(** [v.p] for a value that is neither null nor undefined.  The only
    inherited property the routes read is [length]. *)
Definition member (v : value) (p : string) : value :=
  match v with
  | VObj fields => lookup p fields
  | VArr xs => if p =? "length" then VNum (Z.of_nat (List.length xs)) else VUndefined
  | VStr s => if p =? "length" then VNum (Z.of_nat (String.length s)) else VUndefined
  | _ => VUndefined
  end.

Definition nullish (v : value) : bool :=
  match v with VUndefined | VNull => true | _ => false end.

(** [v.p]: a TypeError on null and undefined. *)
Definition get (v : value) (p : string) : result value :=
  if nullish v then Throw TypeError else Ok (member v p).

(** [v?.p]: undefined on null and undefined. *)
Definition get_opt (v : value) (p : string) : value :=
  if nullish v then VUndefined else member v p.

(** ** process.env *)

Record process_env : Type := {
  env_SHOPIFY_WEBHOOK_SECRET : option string;
  env_HIDDEN_VARIANT_ID : option string;
  env_TRIGGER_VARIANT_IDS : option string;
  env_SHOPIFY_STOREFRONT_ACCESS_TOKEN : option string;
  env_SHOPIFY_STORE_DOMAIN : option string;
  env_BYPASS_WEBHOOK_VERIFICATION : option string;
  env_OG_VARIANT_ID : option string;
  env_SHOPIFY_ADMIN_API_KEY : option string
}.

(** [process.env.X || '']. *)
Definition or_empty (x : option string) : string :=
  match x with
  | Some s => s
  | None => ""
  end.

(** [process.env.X === 'true']. *)
Definition is_true (x : option string) : bool :=
  match x with
  | Some s => s =? "true"
  | None => false
  end.

(** [s.split(',')]: the pieces between commas; never the empty list. *)
Fixpoint split_comma (s : string) : list string :=
  match s with
  | EmptyString => [EmptyString]
  | String c rest =>
      if Ascii.eqb c ","%char then EmptyString :: split_comma rest
      else match split_comma rest with
           | piece :: pieces => String c piece :: pieces
           | [] => [String c EmptyString]
           end
  end.

(** [list.includes(s)] on a list of strings. *)
Definition includes (l : list string) (s : string) : bool :=
  existsb (String.eqb s) l.

(** ** Node's crypto primitives

    [crypto.createHmac('sha256', key).update(body).digest('base64')] and
    [crypto.timingSafeEqual] are library code.  They are written out here
    (SHA-256 after FIPS 180-4, HMAC after RFC 2104, base64 after RFC 4648)
    so that the verifier can be run on concrete requests.  Bytes and 32-bit
    words are integers. *)

Module Crypto.
Local Open Scope Z_scope.

(** [Buffer.from(s)]: the UTF-8 bytes of a string.  A code unit below 128
    is one byte, one from 128 to 255 is two. *)
Fixpoint Buffer_from (s : string) : list Z :=
  match s with
  | EmptyString => []
  | String c rest =>
      let u := Z.of_N (N_of_ascii c) in
      if u <? 128 then u :: Buffer_from rest
      else Z.lor 192 (Z.shiftr u 6) :: Z.lor 128 (Z.land u 63) :: Buffer_from rest
  end.

Definition bytes_eqb (a b : list Z) : bool :=
  (Nat.eqb (List.length a) (List.length b)) && forallb (fun p => fst p =? snd p) (combine a b).

(** [crypto.timingSafeEqual(a, b)]: throws when the byte lengths differ. *)
Definition timingSafeEqual (a b : list Z) : result bool :=
  if Nat.eqb (List.length a) (List.length b) then Ok (bytes_eqb a b)
  else Throw RangeError.

Definition mask32 : Z := 4294967295.
Definition trunc32 (x : Z) : Z := Z.land x mask32.
Definition plus32 (x y : Z) : Z := trunc32 (x + y).
Definition rotr (n x : Z) : Z := Z.lor (Z.shiftr x n) (trunc32 (Z.shiftl x (32 - n))).

Definition choose (x y z : Z) : Z := Z.lxor (Z.land x y) (Z.land (Z.lxor x mask32) z).
Definition majority (x y z : Z) : Z :=
  Z.lxor (Z.lxor (Z.land x y) (Z.land x z)) (Z.land y z).
Definition big_sigma0 (x : Z) : Z := Z.lxor (Z.lxor (rotr 2 x) (rotr 13 x)) (rotr 22 x).
Definition big_sigma1 (x : Z) : Z := Z.lxor (Z.lxor (rotr 6 x) (rotr 11 x)) (rotr 25 x).
Definition small_sigma0 (x : Z) : Z := Z.lxor (Z.lxor (rotr 7 x) (rotr 18 x)) (Z.shiftr x 3).
Definition small_sigma1 (x : Z) : Z := Z.lxor (Z.lxor (rotr 17 x) (rotr 19 x)) (Z.shiftr x 10).

(** Round constants: the fractional parts of the cube roots of the first
    64 primes, 32 bits each. *)
Definition round_constants : list Z :=
  [
    1116352408; 1899447441; 3049323471; 3921009573;
    961987163; 1508970993; 2453635748; 2870763221;
    3624381080; 310598401; 607225278; 1426881987;
    1925078388; 2162078206; 2614888103; 3248222580;
    3835390401; 4022224774; 264347078; 604807628;
    770255983; 1249150122; 1555081692; 1996064986;
    2554220882; 2821834349; 2952996808; 3210313671;
    3336571891; 3584528711; 113926993; 338241895;
    666307205; 773529912; 1294757372; 1396182291;
    1695183700; 1986661051; 2177026350; 2456956037;
    2730485921; 2820302411; 3259730800; 3345764771;
    3516065817; 3600352804; 4094571909; 275423344;
    430227734; 506948616; 659060556; 883997877;
    958139571; 1322822218; 1537002063; 1747873779;
    1955562222; 2024104815; 2227730452; 2361852424;
    2428436474; 2756734187; 3204031479; 3329325298
  ].

(** Initial hash value: the fractional parts of the square roots of the
    first 8 primes. *)
Definition initial_hash : list Z :=
  [ 1779033703; 3144134277; 1013904242; 2773480762; 1359893119; 2600822924; 528734635; 1541459225 ].

(** The [n] low bytes of [x], most significant first. *)
Fixpoint big_endian (n : nat) (x : Z) : list Z :=
  match n with
  | O => []
  | S m => Z.land (Z.shiftr x (8 * Z.of_nat m)) 255 :: big_endian m x
  end.

Fixpoint words_of_bytes (bs : list Z) : list Z :=
  match bs with
  | b3 :: b2 :: b1 :: b0 :: rest =>
      (Z.shiftl b3 24 + Z.shiftl b2 16 + Z.shiftl b1 8 + b0) :: words_of_bytes rest
  | _ => []
  end.

(** Padding: a 1 bit, zeros up to 56 mod 64 bytes, the bit length on 8 bytes. *)
Definition padded (msg : list Z) : list Z :=
  let len := Z.of_nat (List.length msg) in
  msg ++ 128 :: repeat 0 (Z.to_nat ((55 - len) mod 64)) ++ big_endian 8 (8 * len).

Fixpoint blocks (count : nat) (bs : list Z) : list (list Z) :=
  match count with
  | O => []
  | S m => firstn 64 bs :: blocks m (skipn 64 bs)
  end.

(** Message schedule, kept newest word first while it grows. *)
Fixpoint extend_schedule (n : nat) (recent : list Z) : list Z :=
  match n with
  | O => recent
  | S m =>
      let w := plus32 (plus32 (small_sigma1 (nth 1 recent 0)) (nth 6 recent 0))
                      (plus32 (small_sigma0 (nth 14 recent 0)) (nth 15 recent 0)) in
      extend_schedule m (w :: recent)
  end.

Definition schedule (block : list Z) : list Z :=
  rev (extend_schedule 48 (rev (words_of_bytes block))).

Definition working := (Z * Z * Z * Z * Z * Z * Z * Z)%type.

Definition round (s : working) (kw : Z * Z) : working :=
  let '(a, b, c, d, e, f, g, h) := s in
  let t1 := plus32 (plus32 (plus32 h (big_sigma1 e)) (plus32 (choose e f g) (fst kw))) (snd kw) in
  let t2 := plus32 (big_sigma0 a) (majority a b c) in
  (plus32 t1 t2, a, b, c, plus32 d t1, e, f, g).

Definition working_of (h : list Z) : working :=
  (nth 0 h 0, nth 1 h 0, nth 2 h 0, nth 3 h 0, nth 4 h 0, nth 5 h 0, nth 6 h 0, nth 7 h 0).

Definition words_of (s : working) : list Z :=
  let '(a, b, c, d, e, f, g, h) := s in [a; b; c; d; e; f; g; h].

Definition compress (h : list Z) (block : list Z) : list Z :=
  let s := fold_left round (combine round_constants (schedule block)) (working_of h) in
  map (fun p => plus32 (fst p) (snd p)) (combine (words_of (working_of h)) (words_of s)).

Definition sha256 (msg : list Z) : list Z :=
  let p := padded msg in
  let h := fold_left compress (blocks (List.length p / 64) p) initial_hash in
  flat_map (big_endian 4) (words_of (working_of h)).

Definition hmac_key (key : list Z) : list Z :=
  let k := if (64 <? List.length key)%nat then sha256 key else key in
  k ++ repeat 0 (64 - List.length k)%nat.

Definition hmac_sha256 (key msg : list Z) : list Z :=
  let k := hmac_key key in
  sha256 (map (Z.lxor 92) k ++ sha256 (map (Z.lxor 54) k ++ msg)).

Definition base64_alphabet : string :=
  "ABCDEFGHIJKLMNOPQRSTUVWXYZabcdefghijklmnopqrstuvwxyz0123456789+/".

Definition base64_digit (i : Z) : ascii :=
  match String.get (Z.to_nat i) base64_alphabet with
  | Some c => c
  | None => "="%char
  end.

Fixpoint base64 (bs : list Z) : string :=
  match bs with
  | [] => EmptyString
  | [x] =>
      String (base64_digit (Z.shiftr x 2))
        (String (base64_digit (Z.shiftl (Z.land x 3) 4)) "==")
  | [x; y] =>
      String (base64_digit (Z.shiftr x 2))
        (String (base64_digit (Z.lor (Z.shiftl (Z.land x 3) 4) (Z.shiftr y 4)))
           (String (base64_digit (Z.shiftl (Z.land y 15) 2)) "="))
  | x :: y :: z :: rest =>
      String (base64_digit (Z.shiftr x 2))
        (String (base64_digit (Z.lor (Z.shiftl (Z.land x 3) 4) (Z.shiftr y 4)))
           (String (base64_digit (Z.lor (Z.shiftl (Z.land y 15) 2) (Z.shiftr z 6)))
              (String (base64_digit (Z.land z 63)) (base64 rest))))
  end.

(** [crypto.createHmac('sha256', secret).update(body).digest('base64')]:
    string arguments are hashed as their UTF-8 bytes. *)
Definition createHmac_sha256_base64 (secret body : string) : string :=
  base64 (hmac_sha256 (Buffer_from secret) (Buffer_from body)).

End Crypto.

(** ** Outbound requests and the [IO] monad *)

(** The GraphQL document of a request together with the values the source
    interpolates into it or passes as variables. *)
Inductive graphql : Type :=
| cartLinesAdd (cartId : value) (merchandiseId : string) (quantity : Z)
| orderEditBegin (id : string)
| orderEditAddVariant (id variantId : string) (quantity : Z)
| orderEditAddLineItemDiscount (id lineItemId : string) (percentage : Z)
| orderEditCommit (id : string) (notifyCustomer : bool) (staffNote : string).

(** One [fetch(url, { method: 'POST', headers, body })]. *)
Record request : Type := {
  url : string;
  token_header : string * string;
  body : graphql
}.

(** What [fetch] resolves to: the status line and what [response.json()]
    gives ([None] when the body is not JSON). *)
Record Response : Type := {
  http_status : Z;
  http_json : option value
}.

Inductive fetch_outcome : Type :=
| Rejected
| Resolved (r : Response).

(** The remote side: the outcome of the latest request, given every request
    sent so far (oldest first, the latest one last). *)
Definition network : Type := list request -> fetch_outcome.

Definition IO (A : Type) : Type := list request -> result A * list request.

Definition ret {A} (a : A) : IO A := fun sent => (Ok a, sent).

Definition throw {A} (e : exn) : IO A := fun sent => (Throw e, sent).

Definition bind {A B} (c : IO A) (k : A -> IO B) : IO B :=
  fun sent =>
    match c sent with
    | (Ok a, sent') => k a sent'
    | (Throw e, sent') => (Throw e, sent')
    end.

Definition lift {A} (r : result A) : IO A := fun sent => (r, sent).

(** [try { c } catch (error) { handler error }]. *)
Definition try_catch {A} (c : IO A) (handler : exn -> IO A) : IO A :=
  fun sent =>
    match c sent with
    | (Ok a, sent') => (Ok a, sent')
    | (Throw e, sent') => handler e sent'
    end.

Declare Scope io_scope.
Delimit Scope io_scope with io.
Notation "x <- c ;; k" := (bind c (fun x => k))
  (at level 61, c at next level, right associativity) : io_scope.

Definition fetch (net : network) (req : request) : IO Response :=
  fun sent =>
    let sent' := (sent ++ [req])%list in
    match net sent' with
    | Rejected => (Throw FetchError, sent')
    | Resolved r => (Ok r, sent')
    end.

(** [response.ok]: a status in 200..299. *)
Definition ok (r : Response) : bool :=
  ((200 <=? http_status r) && (http_status r <=? 299))%Z.

(** [response.json()]. *)
Definition response_json (r : Response) : result value :=
  match http_json r with
  | Some v => Ok v
  | None => Throw SyntaxError
  end.

(** ** Inbound request and response *)

(** [request.text()] and [request.headers.get('x-shopify-hmac-sha256')]. *)
Record NextRequest : Type := {
  text : string;
  hmac_header : option string
}.

(** The object handed to [NextResponse.json]: either
    [{ error, details? }] or [{ success: true, message }]. *)
Inductive details : Type :=
| DetailsValue (v : value)
| DetailsError (e : exn).        (* String(error) of a caught exception *)

Inductive response_body : Type :=
| ErrorBody (error : string) (d : option details)
| SuccessBody (message : string).

Record NextResponse : Type := {
  status : Z;
  payload : response_body
}.

(** [xs.some(cb)] and the [for ... of] loops that return true at the first
    hit: the callback can throw. *)
Fixpoint some (cb : value -> result bool) (xs : list value) : result bool :=
  match xs with
  | [] => Ok false
  | x :: rest =>
      match cb x with
      | Ok true => Ok true
      | Ok false => some cb rest
      | Throw e => Throw e
      end
  end.

Definition elements (v : value) : list value :=
  match v with
  | VArr xs => xs
  | _ => []
  end.

(** ** The signature verifier

    [verifyShopifyWebhook] has the same text in the cart and in the order
    route; both read SHOPIFY_WEBHOOK_SECRET and BYPASS_WEBHOOK_VERIFICATION. *)

Section Verifier.
Variable env : process_env.

Definition SHOPIFY_WEBHOOK_SECRET : string :=
  or_empty (env_SHOPIFY_WEBHOOK_SECRET env).
Definition BYPASS_WEBHOOK_VERIFICATION : bool :=
  is_true (env_BYPASS_WEBHOOK_VERIFICATION env).

(** [!hmacHeader] for a [string | null]. *)
Definition header_missing (h : option string) : bool :=
  match h with
  | Some s => s =? ""
  | None => true
  end.

Definition verifyShopifyWebhook (body : string) (hmacHeader : option string)
  : result bool :=
  if BYPASS_WEBHOOK_VERIFICATION then Ok true
  else if (SHOPIFY_WEBHOOK_SECRET =? "") || header_missing hmacHeader then Ok false
  else
    let generatedHash :=
      Crypto.createHmac_sha256_base64 SHOPIFY_WEBHOOK_SECRET body in
    Crypto.timingSafeEqual
      (Crypto.Buffer_from generatedHash)
      (Crypto.Buffer_from (or_empty hmacHeader)).
End Verifier.

(** ** Library functions the routes are parametric in

    [JSON.parse] on the request text, and whether ToNumber of a string is
    greater than zero (the one place where a comparison [x > 0] can meet a
    string is a response whose [userErrors] is not an array). *)

Record runtime : Type := {
  JSON_parse : string -> option value;
  StringToNumber_positive : string -> bool
}.

Definition parse_json (rt : runtime) (s : string) : result value :=
  match JSON_parse rt s with
  | Some v => Ok v
  | None => Throw SyntaxError
  end.

(** [v > 0]. *)
Definition gt_zero (rt : runtime) (v : value) : bool :=
  match v with
  | VNum n => (0 <? n)%Z
  | VBool b => b
  | VStr s => StringToNumber_positive rt s
  | VArr _ => StringToNumber_positive rt (ToString v)
  | VUndefined | VNull | VObj _ => false
  end.

(** ** The cart-update route (api/webhook/cart-update/route.ts) *)

Module CartUpdate.
Section Route.
Variable env : process_env.
Variable rt : runtime.
Variable net : network.

Definition HIDDEN_VARIANT_ID : string := or_empty (env_HIDDEN_VARIANT_ID env).
Definition TRIGGER_VARIANT_IDS : list string :=
  split_comma (or_empty (env_TRIGGER_VARIANT_IDS env)).
Definition SHOPIFY_STOREFRONT_ACCESS_TOKEN : string :=
  or_empty (env_SHOPIFY_STOREFRONT_ACCESS_TOKEN env).
Definition SHOPIFY_STORE_DOMAIN : string :=
  or_empty (env_SHOPIFY_STORE_DOMAIN env).

(** Checks if a cart contains any of the trigger variant IDs.
    Past the guard [cart] is neither null nor undefined, so the second
    read [cart.items] is the [cart?.items] of the guard. *)
Definition hasTriggerProduct (cart : value) : result bool :=
  let items := get_opt cart "items" in
  if negb (truthy items) || negb (isArray items)
     || Nat.eqb (List.length TRIGGER_VARIANT_IDS) 0
  then Ok false
  else
    some (fun item =>
            (let? variant_id := get item "variant_id" in
             Ok (includes TRIGGER_VARIANT_IDS (ToString variant_id)))%result)
         (elements items).

(** Checks if the hidden product is already in the cart. *)
Definition hasHiddenProduct (cart : value) : result bool :=
  let items := get_opt cart "items" in
  if negb (truthy items) || negb (isArray items) || (HIDDEN_VARIANT_ID =? "")
  then Ok false
  else
    some (fun item =>
            (let? variant_id := get item "variant_id" in
             Ok (ToString variant_id =? HIDDEN_VARIANT_ID))%result)
         (elements items).

Definition graphqlEndpoint : string :=
  "https://" ++ SHOPIFY_STORE_DOMAIN ++ "/api/2024-04/graphql.json".

(** Adds the hidden product to the cart using the Storefront API.
    The result is the parsed response, or [VNull] for [null]. *)
Definition addHiddenProductToCart (cartId : value) : IO value :=
  if (SHOPIFY_STOREFRONT_ACCESS_TOKEN =? "") || (HIDDEN_VARIANT_ID =? "")
  then ret VNull
  else
    try_catch
      (response <-
         fetch net
           {| url := graphqlEndpoint;
              token_header :=
                ("X-Shopify-Storefront-Access-Token", SHOPIFY_STOREFRONT_ACCESS_TOKEN);
              body :=
                cartLinesAdd cartId
                  ("gid://shopify/ProductVariant/" ++ HIDDEN_VARIANT_ID) 1 |} ;;
       if negb (ok response)
       then throw (Error ("HTTP error! status: "
                          ++ number_to_string (http_status response)))
       else lift (response_json response))%io
      (fun _ => ret VNull).

(** [result && result.data && result.data.cartLinesAdd
     && result.data.cartLinesAdd.userErrors
     && result.data.cartLinesAdd.userErrors.length > 0].
    Each property is read on a truthy value, so no read throws. *)
Definition has_userErrors (result : value) : bool :=
  let data := member result "data" in
  let cartLinesAdd := member data "cartLinesAdd" in
  let userErrors := member cartLinesAdd "userErrors" in
  truthy result && truthy data && truthy cartLinesAdd && truthy userErrors
  && gt_zero rt (member userErrors "length").

Definition POST (request : NextRequest) : IO NextResponse :=
  try_catch
    (let rawBody := text request in
     let hmacHeader := hmac_header request in
     isVerified <- lift (verifyShopifyWebhook env rawBody hmacHeader) ;;
     if negb isVerified
     then ret {| status := 401;
                 payload := ErrorBody "Invalid webhook signature" None |}
     else
       cart <- lift (parse_json rt rawBody) ;;
       trigger <- lift (hasTriggerProduct cart) ;;
       condition <-
         (if trigger
          then lift (let? hidden := hasHiddenProduct cart in Ok (negb hidden))%result
          else ret false) ;;
       if condition
       then
         id <- lift (get cart "id") ;;
         cartId <-
           (if truthy id then ret id else lift (get cart "token")) ;;
         if negb (truthy cartId)
         then ret {| status := 400; payload := ErrorBody "Missing cart ID" None |}
         else
           result <- addHiddenProductToCart cartId ;;
           if has_userErrors result
           then ret {| status := 500;
                       payload :=
                         ErrorBody "Failed to add product"
                           (Some (DetailsValue
                              (member (member (member result "data") "cartLinesAdd")
                                      "userErrors"))) |}
           else ret {| status := 200;
                       payload := SuccessBody "Hidden product added to cart" |}
       else ret {| status := 200; payload := SuccessBody "Webhook received" |})%io
    (fun error =>
       ret {| status := 500;
              payload := ErrorBody "Error processing webhook"
                                   (Some (DetailsError error)) |}).
End Route.
End CartUpdate.

(** ** The order-update route (api/webhook/order-update/route.ts) *)

(** [/^\d+$/.test(s)]: a non-empty run of the digits 0..9. *)
Definition is_digit (c : ascii) : bool :=
  (48 <=? nat_of_ascii c)%nat && (nat_of_ascii c <=? 57)%nat.

Fixpoint all_digits (s : string) : bool :=
  match s with
  | EmptyString => true
  | String c rest => is_digit c && all_digits rest
  end.

Definition digits_only (s : string) : bool :=
  negb (s =? "") && all_digits s.

(** [typeof v === 'number']. *)
Definition is_number (v : value) : bool :=
  match v with VNum _ => true | _ => false end.

Module OrderUpdate.
Section Route.
Variable env : process_env.
Variable rt : runtime.
Variable net : network.

Definition TRIGGER_VARIANT_IDS : list string :=
  split_comma (or_empty (env_TRIGGER_VARIANT_IDS env)).
Definition OG_VARIANT_ID : string := or_empty (env_OG_VARIANT_ID env).
Definition SHOPIFY_ADMIN_API_KEY : string := or_empty (env_SHOPIFY_ADMIN_API_KEY env).
Definition SHOPIFY_STORE_DOMAIN : string := or_empty (env_SHOPIFY_STORE_DOMAIN env).

(** Checks if an order contains any of the trigger variant IDs. *)
Definition hasTriggerProduct (order : value) : result bool :=
  (let? line_items := get order "line_items" in
   if negb (truthy line_items) || negb (isArray line_items)
      || Nat.eqb (List.length TRIGGER_VARIANT_IDS) 0
   then Ok false
   else
     some (fun item =>
             let? product_id := get item "product_id" in
             Ok (truthy product_id
                 && includes TRIGGER_VARIANT_IDS (ToString product_id)))
          (elements line_items))%result.

(** The test of the loop body:
    [(item.product_id && String(item.product_id) === OG_VARIANT_ID) ||
     (item.variant_id && String(item.variant_id) === OG_VARIANT_ID)]. *)
Definition isOGPack (item : value) : result bool :=
  (let? product_id := get item "product_id" in
   if truthy product_id && (ToString product_id =? OG_VARIANT_ID) then Ok true
   else
     let? variant_id := get item "variant_id" in
     Ok (truthy variant_id && (ToString variant_id =? OG_VARIANT_ID)))%result.

(** Checks if an order already contains the OG Pack. *)
Definition hasOGPack (order : value) : result bool :=
  (let? line_items := get order "line_items" in
   if negb (truthy line_items) || negb (isArray line_items)
      || (OG_VARIANT_ID =? "")
   then Ok false
   else some isOGPack (elements line_items))%result.

Definition graphqlEndpoint : string :=
  "https://" ++ SHOPIFY_STORE_DOMAIN ++ "/admin/api/2024-04/graphql.json".

(** Convert numeric order ID to required Shopify GraphQL ID format. *)
Definition orderGid (orderId : value) : value :=
  if is_number orderId || digits_only (ToString orderId)
  then VStr ("gid://shopify/Order/" ++ ToString orderId)
  else orderId.

(** Ensure variant ID is in the correct format. *)
Definition variantGid : string :=
  if String.prefix "gid://shopify/ProductVariant/" OG_VARIANT_ID
  then OG_VARIANT_ID
  else "gid://shopify/ProductVariant/" ++ OG_VARIANT_ID.

(** One round trip as each step writes it: [fetch], then
    [if (!response.ok) throw new Error(...)], then [response.json()]. *)
Definition send (query : graphql) : IO value :=
  (response <-
     fetch net
       {| url := graphqlEndpoint;
          token_header := ("X-Shopify-Access-Token", SHOPIFY_ADMIN_API_KEY);
          body := query |} ;;
   if negb (ok response)
   then throw (Error ("HTTP error! status: "
                      ++ number_to_string (http_status response)))
   else lift (response_json response))%io.

(** [r.errors || (r.data?.m?.userErrors && r.data.m.userErrors.length > 0)]
    for the mutation named [m]. *)
Definition reports_errors (r : value) (m : string) : result bool :=
  (let? errors := get r "errors" in
   if truthy errors then Ok true
   else
     let? data := get r "data" in
     let userErrors := get_opt (get_opt data m) "userErrors" in
     Ok (truthy userErrors && gt_zero rt (member userErrors "length")))%result.

(** [r.data?.m?.holder?.id]. *)
Definition returned_id (r : value) (m holder : string) : result value :=
  (let? data := get r "data" in
   Ok (get_opt (get_opt (get_opt data m) holder) "id"))%result.

(** Adds the free item directly to the order using Admin API and Order
    Edit operations. *)
Definition addFreeItemToOrder (orderId : value) : IO value :=
  if (SHOPIFY_ADMIN_API_KEY =? "") || (OG_VARIANT_ID =? "")
  then ret VNull
  else
    let orderGid := orderGid orderId in
    try_catch
      ((* Step 1: begin an order edit session *)
       beginEditResult <- send (orderEditBegin (ToString orderGid)) ;;
       failed <- lift (reports_errors beginEditResult "orderEditBegin") ;;
       if failed then throw (Error "Error beginning order edit") else
       calculatedOrderId <-
         lift (returned_id beginEditResult "orderEditBegin" "calculatedOrder") ;;
       if negb (truthy calculatedOrderId)
       then throw (Error "No calculatedOrder ID returned from orderEditBegin mutation")
       else
       (* Step 2: add the variant to the order *)
       addVariantResult <-
         send (orderEditAddVariant (ToString calculatedOrderId) variantGid 1) ;;
       failed <- lift (reports_errors addVariantResult "orderEditAddVariant") ;;
       if failed then throw (Error "Error adding variant to order") else
       lineItemId <-
         lift (returned_id addVariantResult "orderEditAddVariant" "calculatedLineItem") ;;
       if negb (truthy lineItemId)
       then throw (Error "No calculatedLineItem ID returned from orderEditAddVariant mutation")
       else
       (* Step 4: add a 100% discount to make the item free *)
       addDiscountResult <-
         send (orderEditAddLineItemDiscount (ToString calculatedOrderId)
                 (ToString lineItemId) 100) ;;
       failed <- lift (reports_errors addDiscountResult "orderEditAddLineItemDiscount") ;;
       if failed then throw (Error "Error adding discount to line item") else
       (* Step 5: commit the changes to the order *)
       commitResult <-
         send (orderEditCommit (ToString calculatedOrderId) false
                 "Added free promotional item") ;;
       failed <- lift (reports_errors commitResult "orderEditCommit") ;;
       if failed then throw (Error "Error committing order edit") else
       ret commitResult)%io
      (fun _ => ret VNull).

(** [xs.forEach(cb)] with a callback that can throw. *)
Fixpoint forEach (cb : value -> result unit) (xs : list value) : result unit :=
  match xs with
  | [] => Ok tt
  | x :: rest =>
      match cb x with
      | Ok _ => forEach cb rest
      | Throw e => Throw e
      end
  end.

(** The property reads of the logging at the head of [POST]:
    [order.order_number], [order.admin_graphql_api_id], and, when
    [order.line_items] is truthy, [order.line_items.forEach] over
    [item.product_id], [item.variant_id], [item.quantity]. *)
Definition log_order (order : value) : result unit :=
  (let? _ := get order "order_number" in
   let? _ := get order "admin_graphql_api_id" in
   let? line_items := get order "line_items" in
   if truthy line_items
   then
     if isArray line_items
     then forEach (fun item =>
                     let? _ := get item "product_id" in
                     let? _ := get item "variant_id" in
                     let? _ := get item "quantity" in
                     Ok tt)
                  (elements line_items)
     else Throw TypeError    (* forEach is not a function *)
   else Ok tt)%result.

Definition POST (request : NextRequest) : IO NextResponse :=
  try_catch
    (let rawBody := text request in
     let hmacHeader := hmac_header request in
     isVerified <- lift (verifyShopifyWebhook env rawBody hmacHeader) ;;
     if negb isVerified
     then ret {| status := 401;
                 payload := ErrorBody "Invalid webhook signature" None |}
     else
       order <- lift (parse_json rt rawBody) ;;
       _ <- lift (log_order order) ;;
       trigger <- lift (hasTriggerProduct order) ;;
       condition <-
         (if trigger
          then lift (let? og := hasOGPack order in Ok (negb og))%result
          else ret false) ;;
       if condition
       then
         id <- lift (get order "id") ;;
         orderId <-
           (if truthy id then ret id
            else lift (get order "admin_graphql_api_id")) ;;
         if negb (truthy orderId)
         then ret {| status := 400; payload := ErrorBody "Missing order ID" None |}
         else
           result <- addFreeItemToOrder orderId ;;
           if negb (truthy result) || truthy (member result "errors")
           then ret {| status := 500;
                       payload :=
                         ErrorBody "Failed to add free item to order"
                           (Some (DetailsValue
                              (js_or (get_opt result "errors")
                                     (VStr "Unknown error")))) |}
           else ret {| status := 200;
                       payload := SuccessBody "Free item added to order" |}
       else
         (* the else branch logs both predicates again *)
         _ <- lift (hasTriggerProduct order) ;;
         _ <- lift (hasOGPack order) ;;
         ret {| status := 200; payload := SuccessBody "Webhook received" |})%io
    (fun error =>
       ret {| status := 500;
              payload := ErrorBody "Error processing webhook"
                                   (Some (DetailsError error)) |}).
End Route.
End OrderUpdate.

(** ** The first revision of the order-update route

    The second document of order-update/route.ts is the route as first
    written.  Its two predicates read [product_id] only and without a
    truthiness guard. *)

Module OrderUpdateInitial.
Section Route.
Variable env : process_env.

Definition TRIGGER_VARIANT_IDS : list string :=
  split_comma (or_empty (env_TRIGGER_VARIANT_IDS env)).
Definition OG_VARIANT_ID : string := or_empty (env_OG_VARIANT_ID env).

Definition hasTriggerProduct (order : value) : result bool :=
  (let? line_items := get order "line_items" in
   if negb (truthy line_items) || negb (isArray line_items)
      || Nat.eqb (List.length TRIGGER_VARIANT_IDS) 0
   then Ok false
   else
     some (fun item =>
             let? product_id := get item "product_id" in
             Ok (includes TRIGGER_VARIANT_IDS (ToString product_id)))
          (elements line_items))%result.

Definition hasOGPack (order : value) : result bool :=
  (let? line_items := get order "line_items" in
   if negb (truthy line_items) || negb (isArray line_items)
      || (OG_VARIANT_ID =? "")
   then Ok false
   else
     some (fun item =>
             let? product_id := get item "product_id" in
             Ok (ToString product_id =? OG_VARIANT_ID))
          (elements line_items))%result.
End Route.
End OrderUpdateInitial.

(** ** The test route for order edits

    Its [addFreeItemToOrder] takes the whole order and settles the order
    GID before the first request; only that prelude is embedded. *)

Module TestOrder.

(** [let orderGid = order.admin_graphql_api_id;
     if (!orderGid || !orderGid.startsWith('gid://')) {
       const numericId = order.id;
       if (numericId) orderGid = `gid://shopify/Order/${numericId}`; }
     if (!orderGid) throw new Error('Unable to determine order GID');] *)
Definition orderGid (order : value) : result value :=
  (let? admin_id := get order "admin_graphql_api_id" in
   let? keep :=
     (if truthy admin_id
      then match admin_id with
           | VStr s => Ok (String.prefix "gid://" s)
           | _ => Throw TypeError      (* startsWith is not a function *)
           end
      else Ok false) in
   let? gid :=
     (if keep then Ok admin_id
      else
        let? numericId := get order "id" in
        Ok (if truthy numericId
            then VStr ("gid://shopify/Order/" ++ ToString numericId)
            else admin_id)) in
   if truthy gid then Ok gid
   else Throw (Error "Unable to determine order GID"))%result.

(** The hardcoded order of the route's GET handler, the only argument
    addFreeItemToOrder is called with there. *)
Definition testOrder : value :=
  VObj [("id", VNum 5380452647120);
        ("admin_graphql_api_id", VStr "gid://shopify/Order/5380452647120");
        ("order_number", VNum 241132);
        ("line_items", VArr [])].

End TestOrder.

(** ** Sample configuration and traffic

    Concrete environments, payloads, requests and remote sides on which
    the routes are run. *)

Module Sample.

Definition configured : process_env :=
  {| env_SHOPIFY_WEBHOOK_SECRET := Some "shpss_secret";
     env_HIDDEN_VARIANT_ID := Some "H1";
     env_TRIGGER_VARIANT_IDS := Some "T1";
     env_SHOPIFY_STOREFRONT_ACCESS_TOKEN := Some "storefront-token";
     env_SHOPIFY_STORE_DOMAIN := Some "vex.myshopify.com";
     env_BYPASS_WEBHOOK_VERIFICATION := None;
     env_OG_VARIANT_ID := Some "OG1";
     env_SHOPIFY_ADMIN_API_KEY := Some "admin-token" |}.

(** TRIGGER_VARIANT_IDS is not set. *)
Definition no_triggers : process_env :=
  {| env_SHOPIFY_WEBHOOK_SECRET := Some "shpss_secret";
     env_HIDDEN_VARIANT_ID := Some "H1";
     env_TRIGGER_VARIANT_IDS := None;
     env_SHOPIFY_STOREFRONT_ACCESS_TOKEN := Some "storefront-token";
     env_SHOPIFY_STORE_DOMAIN := Some "vex.myshopify.com";
     env_BYPASS_WEBHOOK_VERIFICATION := None;
     env_OG_VARIANT_ID := Some "OG1";
     env_SHOPIFY_ADMIN_API_KEY := Some "admin-token" |}.

(** SHOPIFY_STOREFRONT_ACCESS_TOKEN and SHOPIFY_ADMIN_API_KEY are empty. *)
Definition no_tokens : process_env :=
  {| env_SHOPIFY_WEBHOOK_SECRET := Some "shpss_secret";
     env_HIDDEN_VARIANT_ID := Some "H1";
     env_TRIGGER_VARIANT_IDS := Some "T1";
     env_SHOPIFY_STOREFRONT_ACCESS_TOKEN := Some "";
     env_SHOPIFY_STORE_DOMAIN := Some "vex.myshopify.com";
     env_BYPASS_WEBHOOK_VERIFICATION := None;
     env_OG_VARIANT_ID := Some "OG1";
     env_SHOPIFY_ADMIN_API_KEY := Some "" |}.

(** TRIGGER_VARIANT_IDS is set to the empty string. *)
Definition blank_triggers : process_env :=
  {| env_SHOPIFY_WEBHOOK_SECRET := Some "shpss_secret";
     env_HIDDEN_VARIANT_ID := Some "H1";
     env_TRIGGER_VARIANT_IDS := Some "";
     env_SHOPIFY_STOREFRONT_ACCESS_TOKEN := Some "storefront-token";
     env_SHOPIFY_STORE_DOMAIN := Some "vex.myshopify.com";
     env_BYPASS_WEBHOOK_VERIFICATION := None;
     env_OG_VARIANT_ID := Some "OG1";
     env_SHOPIFY_ADMIN_API_KEY := Some "admin-token" |}.



Definition quoted (s : string) : string :=
  String "034"%char (s ++ String "034"%char EmptyString).

(** The JSON text of a value without [undefined] whose strings need no
    escaping. *)
Fixpoint JSON_text (v : value) : string :=
  match v with
  | VUndefined | VNull => "null"
  | VBool true => "true"
  | VBool false => "false"
  | VNum n => number_to_string n
  | VStr s => quoted s
  | VArr xs => "[" ++ String.concat "," (map JSON_text xs) ++ "]"
  | VObj fields =>
      "{" ++ String.concat ","
               (map (fun kv => quoted (fst kv) ++ ":" ++ JSON_text (snd kv)) fields)
          ++ "}"
  end.

(** A runtime whose [JSON.parse] knows the text of one value. *)
Definition parsing (v : value) : runtime :=
  {| JSON_parse := fun s => if s =? JSON_text v then Some v else None;
     StringToNumber_positive := fun _ => false |}.

(** [{"id":"c1","items":[{"variant_id":"T1","quantity":1}]}] *)
Definition cart : value :=
  VObj [("id", VStr "c1");
        ("items", VArr [VObj [("variant_id", VStr "T1"); ("quantity", VNum 1)]])].

(** The same cart with an empty variant identifier. *)
Definition cart_blank_variant : value :=
  VObj [("id", VStr "c1");
        ("items", VArr [VObj [("variant_id", VStr ""); ("quantity", VNum 1)]])].

(** [{"id":5380452647120,"order_number":241132,
      "line_items":[{"variant_id":"V9","product_id":"T1","quantity":1}]}] *)
Definition order : value :=
  VObj [("id", VNum 5380452647120);
        ("order_number", VNum 241132);
        ("line_items",
           VArr [VObj [("variant_id", VStr "V9"); ("product_id", VStr "T1");
                       ("quantity", VNum 1)]])].

(** Correctly signed deliveries of [cart] and [order] under the secret of
    [configured]. *)
Definition cart_delivery : NextRequest :=
  {| text := JSON_text cart;
     hmac_header := Some "uYJlbeI57pZUpM4SO2T42TfZMBwf7eaMkHXeQ497mio=" |}.

Definition order_delivery : NextRequest :=
  {| text := JSON_text order;
     hmac_header := Some "ESbJhHqDyjB9so7fhAYc5+4JRPWgWlv9L8vFkjzKN/g=" |}.

(** The signed delivery of [cart_blank_variant]. *)
Definition blank_variant_delivery : NextRequest :=
  {| text := JSON_text cart_blank_variant;
     hmac_header := Some "wbRjHWgPQVz29hLwQQFVH4BhwhBChdpfnE7e81Omtfs=" |}.

(** The delivery of [cart] with the first character of the signature
    replaced by the byte 233. *)
Definition cart_delivery_mutated : NextRequest :=
  {| text := JSON_text cart;
     hmac_header :=
       Some (String "233"%char "YJlbeI57pZUpM4SO2T42TfZMBwf7eaMkHXeQ497mio=") |}.

(** The delivery of [cart] with a signature that is too short. *)
Definition cart_delivery_short : NextRequest :=
  {| text := JSON_text cart; hmac_header := Some "abc" |}.

Definition order_delivery_short : NextRequest :=
  {| text := JSON_text order; hmac_header := Some "abc" |}.

(** Remote sides. *)
Definition unreachable : network := fun _ => Rejected.

Definition unavailable : network :=
  fun _ => Resolved {| http_status := 503; http_json := None |}.

Definition answering (v : value) : network :=
  fun _ => Resolved {| http_status := 200; http_json := Some v |}.

Definition userError : value :=
  VObj [("field", VNull); ("message", VStr "Invalid id")].

(** [{"data":{"cartLinesAdd":{"cart":null,"userErrors":[...]}}}] *)
Definition cart_userErrors : value :=
  VObj [("data",
         VObj [("cartLinesAdd",
                VObj [("cart", VNull); ("userErrors", VArr [userError])])])].

(** [{"data":{"orderEditBegin":{"calculatedOrder":null,"userErrors":[...]}}}] *)
Definition begin_userErrors : value :=
  VObj [("data",
         VObj [("orderEditBegin",
                VObj [("calculatedOrder", VNull);
                      ("userErrors", VArr [userError])])])].

(** [{"data":{"orderEditBegin":{"userErrors":[]}}}] *)
Definition begin_without_token : value :=
  VObj [("data", VObj [("orderEditBegin", VObj [("userErrors", VArr [])])])].

(** Orders for the presence predicate. *)
Definition order_with (item : value) : value :=
  VObj [("id", VNum 1); ("line_items", VArr [item])].

End Sample.

(** ** The order route as first written: the edit and the handler

    The second document of order-update/route.ts.  Its order edit passes
    the identifiers as GraphQL variables, sets the price of the added
    line instead of discounting it, and sends the order identifier as the
    handler read it.  The messages of the errors it throws end in a
    JSON.stringify of the response; they are caught and logged inside the
    function, and only their fixed part is kept here. *)

Module FirstRevision.

(** The GraphQL documents with the variables passed to them. *)
Inductive mutation : Type :=
| beginEdit (id : value)
| addVariant (id : value) (variantId : string) (quantity : Z)
| updateLineItem (id lineItemId : value) (amount currencyCode : string)
| commitEdit (id : value).

Record call : Type := {
  endpoint : string;
  access_token : string;
  document : mutation
}.

(** The remote side and the computations, over the calls of this
    revision. *)
Definition remote : Type := list call -> fetch_outcome.

Definition Edit (A : Type) : Type := list call -> result A * list call.

Definition ret {A} (a : A) : Edit A := fun sent => (Ok a, sent).

Definition throw {A} (e : exn) : Edit A := fun sent => (Throw e, sent).

Definition bind {A B} (c : Edit A) (k : A -> Edit B) : Edit B :=
  fun sent =>
    match c sent with
    | (Ok a, sent') => k a sent'
    | (Throw e, sent') => (Throw e, sent')
    end.

Definition lift {A} (r : result A) : Edit A := fun sent => (r, sent).

Definition try_catch {A} (c : Edit A) (handler : exn -> Edit A) : Edit A :=
  fun sent =>
    match c sent with
    | (Ok a, sent') => (Ok a, sent')
    | (Throw e, sent') => handler e sent'
    end.

Definition fetch (net : remote) (req : call) : Edit Response :=
  fun sent =>
    let sent' := (sent ++ [req])%list in
    match net sent' with
    | Rejected => (Throw FetchError, sent')
    | Resolved r => (Ok r, sent')
    end.

Declare Scope edit_scope.
Delimit Scope edit_scope with edit.
Notation "x <- c ;; k" := (bind c (fun x => k))
  (at level 61, c at next level, right associativity) : edit_scope.

Section Route.
Variable env : process_env.
Variable rt : runtime.
Variable net : remote.

Definition OG_VARIANT_ID : string := or_empty (env_OG_VARIANT_ID env).
Definition SHOPIFY_ADMIN_API_KEY : string := or_empty (env_SHOPIFY_ADMIN_API_KEY env).
Definition SHOPIFY_STORE_DOMAIN : string := or_empty (env_SHOPIFY_STORE_DOMAIN env).

Definition graphqlEndpoint : string :=
  "https://" ++ SHOPIFY_STORE_DOMAIN ++ "/admin/api/2024-04/graphql.json".

(** One round trip: [fetch], then
    [if (!response.ok) throw new Error(...)], then [response.json()]. *)
Definition send (query : mutation) : Edit value :=
  (response <-
     fetch net
       {| endpoint := graphqlEndpoint;
          access_token := SHOPIFY_ADMIN_API_KEY;
          document := query |} ;;
   if negb (ok response)
   then throw (Error ("HTTP error! status: "
                      ++ number_to_string (http_status response)))
   else lift (response_json response))%edit.

(** [r.data.a.b], each step a plain property read. *)
Definition read2 (r : value) (a b : string) : result value :=
  (let? data := get r "data" in
   let? x := get data a in
   get x b)%result.

(** [r.data.a.b.c]. *)
Definition read3 (r : value) (a b c : string) : result value :=
  (let? x := read2 r a b in get x c)%result.

Definition addFreeItemToOrder (orderId : value) : Edit value :=
  if (SHOPIFY_ADMIN_API_KEY =? "") || (OG_VARIANT_ID =? "")
  then ret VNull
  else
    try_catch
      ((* Step 1: begin an order edit *)
       beginEditResult <- send (beginEdit orderId) ;;
       failed <- lift (OrderUpdate.reports_errors rt beginEditResult "orderEdit") ;;
       if failed then throw (Error "Error beginning order edit: ") else
       orderEditId <- lift (read2 beginEditResult "orderEdit" "id") ;;
       (* Step 2: add the variant to the order *)
       addVariantResult <-
         send (addVariant orderEditId
                 ("gid://shopify/ProductVariant/" ++ OG_VARIANT_ID) 1) ;;
       failed <- lift (OrderUpdate.reports_errors rt addVariantResult
                         "orderEditAddVariant") ;;
       if failed then throw (Error "Error adding variant to order: ") else
       (* Step 3: set the new line item price to $0 *)
       lineItemId <-
         lift (read3 addVariantResult "orderEditAddVariant" "calculatedLineItem" "id") ;;
       updateLineItemResult <-
         send (updateLineItem orderEditId lineItemId "0.00" "USD") ;;
       (* Step 4: commit the order edit *)
       commitResult <- send (commitEdit orderEditId) ;;
       failed <- lift (OrderUpdate.reports_errors rt commitResult "orderEditCommit") ;;
       if failed then throw (Error "Error committing order edit: ") else
       ret commitResult)%edit
      (fun _ => ret VNull).

Definition POST (request : NextRequest) : Edit NextResponse :=
  try_catch
    (let rawBody := text request in
     let hmacHeader := hmac_header request in
     isVerified <- lift (verifyShopifyWebhook env rawBody hmacHeader) ;;
     if negb isVerified
     then ret {| status := 401;
                 payload := ErrorBody "Invalid webhook signature" None |}
     else
       order <- lift (parse_json rt rawBody) ;;
       (* [if (order.line_items)] of the logging *)
       _ <- lift (get order "line_items") ;;
       trigger <- lift (OrderUpdateInitial.hasTriggerProduct env order) ;;
       condition <-
         (if trigger
          then lift (let? og := OrderUpdateInitial.hasOGPack env order in
                     Ok (negb og))%result
          else ret false) ;;
       if condition
       then
         orderId <- lift (get order "id") ;;
         if negb (truthy orderId)
         then ret {| status := 400; payload := ErrorBody "Missing order ID" None |}
         else
           result <- addFreeItemToOrder orderId ;;
           if negb (truthy result) || truthy (member result "errors")
           then ret {| status := 500;
                       payload :=
                         ErrorBody "Failed to add free item to order"
                           (Some (DetailsValue
                              (js_or (get_opt result "errors")
                                     (VStr "Unknown error")))) |}
           else ret {| status := 200;
                       payload := SuccessBody "Free item added to order" |}
       else ret {| status := 200; payload := SuccessBody "Webhook received" |})%edit
    (fun error =>
       ret {| status := 500;
              payload := ErrorBody "Error processing webhook"
                                   (Some (DetailsError error)) |}).
End Route.
End FirstRevision.

(** ** Further sample traffic

    Payloads for the branches of the two handlers, each with its signed
    delivery under the secret of [Sample.configured], and a remote side
    that carries an order edit through. *)

Module Scenario.

(** The configured environment with verification bypassed. *)
Definition bypassing : process_env :=
  {| env_SHOPIFY_WEBHOOK_SECRET := Some "shpss_secret";
     env_HIDDEN_VARIANT_ID := Some "H1";
     env_TRIGGER_VARIANT_IDS := Some "T1";
     env_SHOPIFY_STOREFRONT_ACCESS_TOKEN := Some "storefront-token";
     env_SHOPIFY_STORE_DOMAIN := Some "vex.myshopify.com";
     env_BYPASS_WEBHOOK_VERIFICATION := Some "true";
     env_OG_VARIANT_ID := Some "OG1";
     env_SHOPIFY_ADMIN_API_KEY := Some "admin-token" |}.

(** Two trigger variants. *)
Definition two_triggers : process_env :=
  {| env_SHOPIFY_WEBHOOK_SECRET := Some "shpss_secret";
     env_HIDDEN_VARIANT_ID := Some "H1";
     env_TRIGGER_VARIANT_IDS := Some "T1,T2";
     env_SHOPIFY_STOREFRONT_ACCESS_TOKEN := Some "storefront-token";
     env_SHOPIFY_STORE_DOMAIN := Some "vex.myshopify.com";
     env_BYPASS_WEBHOOK_VERIFICATION := None;
     env_OG_VARIANT_ID := Some "OG1";
     env_SHOPIFY_ADMIN_API_KEY := Some "admin-token" |}.

(** A cart without a trigger product. *)
Definition cart_plain : value :=
  VObj [("id", VStr "c2");
        ("items", VArr [VObj [("variant_id", VStr "V9"); ("quantity", VNum 2)]])].

(** A cart that holds the trigger product and the hidden product. *)
Definition cart_complete : value :=
  VObj [("id", VStr "c1");
        ("items", VArr [VObj [("variant_id", VStr "T1"); ("quantity", VNum 1)];
                        VObj [("variant_id", VStr "H1"); ("quantity", VNum 1)]])].

(** A cart with a trigger product and neither [id] nor [token]. *)
Definition cart_anonymous : value :=
  VObj [("items", VArr [VObj [("variant_id", VStr "T1"); ("quantity", VNum 1)]])].

(** [{"data":{"cartLinesAdd":{"cart":{"id":"c1"},"userErrors":[]}}}] *)
Definition cart_added : value :=
  VObj [("data",
         VObj [("cartLinesAdd",
                VObj [("cart", VObj [("id", VStr "c1")]);
                      ("userErrors", VArr [])])])].

(** An order without a trigger product. *)
Definition order_plain : value :=
  VObj [("id", VNum 5380452647121);
        ("order_number", VNum 241133);
        ("line_items",
           VArr [VObj [("variant_id", VStr "V9"); ("product_id", VStr "P9");
                       ("quantity", VNum 1)]])].

(** An order that holds the trigger product and the free item. *)
Definition order_complete : value :=
  VObj [("id", VNum 5380452647120);
        ("order_number", VNum 241132);
        ("line_items",
           VArr [VObj [("variant_id", VStr "V9"); ("product_id", VStr "T1");
                       ("quantity", VNum 1)];
                 VObj [("variant_id", VStr "OG1"); ("product_id", VStr "P1");
                       ("quantity", VNum 1)]])].

(** An order with a trigger product and neither [id] nor
    [admin_graphql_api_id]. *)
Definition order_anonymous : value :=
  VObj [("order_number", VNum 241134);
        ("line_items",
           VArr [VObj [("variant_id", VStr "V9"); ("product_id", VStr "T1");
                       ("quantity", VNum 1)]])].

(** An order whose [line_items] is a string. *)
Definition order_without_lines : value :=
  VObj [("id", VNum 5380452647122); ("line_items", VStr "none")].

(** What Shopify delivers for a payload: its JSON text, with the base64
    HMAC-SHA256 of that text under the shared secret as signature. *)
Definition signed (v : value) : NextRequest :=
  {| text := Sample.JSON_text v;
     hmac_header :=
       Some (Crypto.createHmac_sha256_base64 "shpss_secret" (Sample.JSON_text v)) |}.

(** Responses of the four steps of an order edit. *)
Definition began : value :=
  VObj [("data",
         VObj [("orderEditBegin",
                VObj [("calculatedOrder",
                       VObj [("id", VStr "gid://shopify/CalculatedOrder/7")]);
                      ("userErrors", VArr [])])])].

Definition added : value :=
  VObj [("data",
         VObj [("orderEditAddVariant",
                VObj [("calculatedLineItem",
                       VObj [("id", VStr "gid://shopify/CalculatedLineItem/9")]);
                      ("userErrors", VArr [])])])].

Definition discounted : value :=
  VObj [("data",
         VObj [("orderEditAddLineItemDiscount",
                VObj [("calculatedOrder",
                       VObj [("id", VStr "gid://shopify/CalculatedOrder/7")]);
                      ("userErrors", VArr [])])])].

Definition committed : value :=
  VObj [("data",
         VObj [("orderEditCommit",
                VObj [("order", VObj [("id", VStr "gid://shopify/Order/5380452647120")]);
                      ("userErrors", VArr [])])])].

(** A remote side that answers each request by its mutation. *)
Definition shop : network :=
  fun sent =>
    match rev sent with
    | [] => Rejected
    | req :: _ =>
        Resolved
          {| http_status := 200;
             http_json :=
               Some (match body req with
                     | cartLinesAdd _ _ _ => cart_added
                     | orderEditBegin _ => began
                     | orderEditAddVariant _ _ _ => added
                     | orderEditAddLineItemDiscount _ _ _ => discounted
                     | orderEditCommit _ _ _ => committed
                     end) |}
    end.

(** Responses to the first revision of the order edit: a begin response,
    and a price step that the API refuses. *)
Definition edit_begun : value :=
  VObj [("data",
         VObj [("orderEdit",
                VObj [("id", VStr "gid://shopify/CalculatedOrder/7");
                      ("userErrors", VArr [])])])].

Definition price_refused : value :=
  VObj [("errors",
         VArr [VObj [("message", VStr "Field 'orderEditUpdateLineItem' doesn't exist")]])].

(** A remote side that answers each call of the first revision by its
    document, refusing the price step. *)
Definition shop_refusing_price : FirstRevision.remote :=
  fun sent =>
    match rev sent with
    | [] => Rejected
    | req :: _ =>
        Resolved
          {| http_status := 200;
             http_json :=
               Some (match FirstRevision.document req with
                     | FirstRevision.beginEdit _ => edit_begun
                     | FirstRevision.addVariant _ _ _ => added
                     | FirstRevision.updateLineItem _ _ _ _ => price_refused
                     | FirstRevision.commitEdit _ => committed
                     end) |}
    end.



End Scenario.

(** * Vocabulary of the properties

    Definitions used to state the properties: what a run answers, what it
    sends, and the requests and responses the statements speak of. *)

(** The statuses the handlers answer with. *)
Definition valid_status (z : Z) : Prop :=
  z = 200%Z \/ z = 400%Z \/ z = 401%Z \/ z = 500%Z.

(** The status of the response of a run, if it returned one. *)
Definition status_of (run : result NextResponse * list request) : option Z :=
  match fst run with
  | Ok response => Some (status response)
  | Throw _ => None
  end.

(** Whatever value a computation returns satisfies [P]; says nothing when
    it throws. *)
Definition yields {A} (P : A -> Prop) (c : IO A) : Prop :=
  forall sent, match fst (c sent) with
               | Ok a => P a
               | Throw _ => True
               end.

(** A computation only ever appends to the list of requests sent. *)
Definition extends {A} (c : IO A) : Prop :=
  forall sent, exists more, snd (c sent) = (sent ++ more)%list.

(** The first thing a computation does is to send [req]. *)
Definition starts_with {A} (req : request) (c : IO A) : Prop :=
  forall sent, exists more, snd (c sent) = (sent ++ req :: more)%list.

(** The one request the cart route sends. *)
Definition cart_request (env : process_env) (cartId : value) : request :=
  {| url := CartUpdate.graphqlEndpoint env;
     token_header :=
       ("X-Shopify-Storefront-Access-Token",
        CartUpdate.SHOPIFY_STOREFRONT_ACCESS_TOKEN env);
     body :=
       cartLinesAdd cartId
         ("gid://shopify/ProductVariant/" ++ CartUpdate.HIDDEN_VARIANT_ID env) 1 |}.

(** The call failed: in transport (fetch rejected, status outside 2xx), or
    with user-level errors inside the response. *)
Definition cart_call_failed (rt : runtime) (outcome : fetch_outcome) : Prop :=
  match outcome with
  | Rejected => True
  | Resolved r =>
      ok r = false
      \/ exists v, http_json r = Some v /\ CartUpdate.has_userErrors rt v = true
  end.

(** The request the order route sends for a GraphQL document. *)
Definition admin_request (env : process_env) (query : graphql) : request :=
  {| url := OrderUpdate.graphqlEndpoint env;
     token_header := ("X-Shopify-Access-Token", OrderUpdate.SHOPIFY_ADMIN_API_KEY env);
     body := query |}.

(** The begin call for an order identifier. *)
Definition begin_request (env : process_env) (orderId : value) : request :=
  admin_request env (orderEditBegin (ToString (OrderUpdate.orderGid orderId))).

(** What a begin response carries as user errors and as session token. *)
Definition begin_userErrors_of (v : value) : value :=
  get_opt (get_opt (get_opt v "data") "orderEditBegin") "userErrors".

Definition begin_token_of (v : value) : value :=
  get_opt (get_opt (get_opt (get_opt v "data") "orderEditBegin") "calculatedOrder") "id".

(** The begin response reports a user error or carries no session token. *)
Definition begin_refused (v : value) : Prop :=
  (exists e es, begin_userErrors_of v = VArr (e :: es))
  \/ truthy (begin_token_of v) = false.


(** [cart.id || cart.token]. *)
Definition cart_identifier (cart : value) : value :=
  js_or (member cart "id") (member cart "token").

(** [order.id || order.admin_graphql_api_id]. *)
Definition order_identifier (order : value) : value :=
  js_or (member order "id") (member order "admin_graphql_api_id").



(** An identifier as the payload types declare it ([string | number]), or
    an absent one. *)
Definition declared_identifier (v : value) : Prop :=
  match v with
  | VStr _ | VNum _ | VUndefined => True
  | _ => False
  end.

(** A code unit below 128: one that [Buffer.from] keeps as one byte. *)
Definition is_ascii (c : ascii) : bool := (Z.of_N (N_of_ascii c) <? 128)%Z.

(** The bytes [Buffer.from] gives for one code unit. *)
Definition encode_unit (c : ascii) : list Z :=
  let u := Z.of_N (N_of_ascii c) in
  if (u <? 128)%Z then [u]
  else [Z.lor 192 (Z.shiftr u 6); Z.lor 128 (Z.land u 63)].

(** Reads back the first code unit of an encoded string. *)
Definition decode_unit (bytes : list Z) : option (ascii * list Z) :=
  match bytes with
  | [] => None
  | b :: rest =>
      if (b <? 128)%Z then Some (ascii_of_N (Z.to_N b), rest)
      else match rest with
           | [] => None
           | b' :: rest' =>
               Some (ascii_of_N
                       (Z.to_N (Z.lor (Z.shiftl (Z.land b 3) 6) (Z.land b' 63))),
                     rest')
           end
  end.

(** C6 as the specification words it: null on every failure, user-level
    errors included. *)
Definition null_on_every_failure : Prop :=
  forall (env : process_env) (rt : runtime) (net : network)
         (cartId : value) (sent : list request),
    cart_call_failed rt (net (sent ++ [cart_request env cartId])%list) ->
    fst (CartUpdate.addHiddenProductToCart env net cartId sent) = Ok VNull.


(** A string without a comma. *)
Definition comma_free (s : string) : bool :=
  forallb (fun c => negb (Ascii.eqb c ","%char)) (list_ascii_of_string s).

(** The responses the handlers build. *)
Definition acknowledged : NextResponse :=
  {| status := 200; payload := SuccessBody "Webhook received" |}.

Definition processing_error (e : exn) : NextResponse :=
  {| status := 500;
     payload := ErrorBody "Error processing webhook" (Some (DetailsError e)) |}.

(** What the cart handler answers once addHiddenProductToCart has
    returned [result]. *)
Definition cart_answer (rt : runtime) (result : value) : NextResponse :=
  if CartUpdate.has_userErrors rt result
  then {| status := 500;
          payload :=
            ErrorBody "Failed to add product"
              (Some (DetailsValue
                 (member (member (member result "data") "cartLinesAdd")
                         "userErrors"))) |}
  else {| status := 200; payload := SuccessBody "Hidden product added to cart" |}.

(** What the order handler answers once addFreeItemToOrder has returned
    [result]. *)
Definition order_answer (result : value) : NextResponse :=
  if negb (truthy result) || truthy (member result "errors")
  then {| status := 500;
          payload :=
            ErrorBody "Failed to add free item to order"
              (Some (DetailsValue
                 (js_or (get_opt result "errors") (VStr "Unknown error")))) |}
  else {| status := 200; payload := SuccessBody "Free item added to order" |}.




(** How status and body of an answer go together: a success body comes
    with 200 only; 401 and 400 carry their fixed message and no details;
    an error with details is a 500. *)
Definition answer_shape (response : NextResponse) : Prop :=
  match payload response with
  | SuccessBody _ => status response = 200%Z
  | ErrorBody message None =>
      (status response = 401%Z /\ message = "Invalid webhook signature")
      \/ (status response = 400%Z
          /\ (message = "Missing cart ID" \/ message = "Missing order ID"))
  | ErrorBody _ (Some _) => status response = 500%Z
  end.


(** The call the first revision sends for a document. *)
Definition first_call (env : process_env) (query : FirstRevision.mutation)
  : FirstRevision.call :=
  {| FirstRevision.endpoint := FirstRevision.graphqlEndpoint env;
     FirstRevision.access_token := FirstRevision.SHOPIFY_ADMIN_API_KEY env;
     FirstRevision.document := query |}.

(** A call of the first revision was answered 2xx with the JSON body [v]. *)
Definition first_answered (env : process_env) (net : FirstRevision.remote)
           (query : FirstRevision.mutation) (sent : list FirstRevision.call)
           (v : value) : Prop :=
  FirstRevision.send env net query sent
  = (Ok v, (sent ++ [first_call env query])%list).

(** The four calls of a complete edit of the first revision. *)
Definition first_edit_calls (env : process_env) (orderId editId lineId : value)
  : list FirstRevision.call :=
  [ first_call env (FirstRevision.beginEdit orderId);
    first_call env
      (FirstRevision.addVariant editId
         ("gid://shopify/ProductVariant/" ++ FirstRevision.OG_VARIANT_ID env) 1);
    first_call env (FirstRevision.updateLineItem editId lineId "0.00" "USD");
    first_call env (FirstRevision.commitEdit editId) ].


(** * Properties *)

(** ** Reasoning about [IO] computations *)

Lemma yields_ret {A} (P : A -> Prop) (a : A) : P a -> yields P (ret a).
Proof. intros H sent. exact H. Qed.

Lemma yields_throw {A} (P : A -> Prop) (e : exn) : yields P (throw e).
Proof. intros sent. exact I. Qed.

Lemma yields_bind {A B} (P : B -> Prop) (c : IO A) (k : A -> IO B) :
  (forall a, yields P (k a)) -> yields P (bind c k).
Proof.
  intros H sent. unfold bind.
  destruct (c sent) as [[a | e] sent']; simpl.
  - apply H.
  - exact I.
Qed.

Lemma try_catch_returns {A} (P : A -> Prop) (c : IO A) (handler : exn -> IO A) :
  yields P c ->
  (forall e sent, exists a sent', handler e sent = (Ok a, sent') /\ P a) ->
  forall sent, exists a sent', try_catch c handler sent = (Ok a, sent') /\ P a.
Proof.
  intros Hc Hh sent. unfold try_catch.
  specialize (Hc sent).
  destruct (c sent) as [[a | e] sent']; simpl in Hc.
  - exists a, sent'. split; [reflexivity | exact Hc].
  - apply Hh.
Qed.

Lemma extends_ret {A} (a : A) : extends (ret a).
Proof. intros sent. exists []. simpl. now rewrite app_nil_r. Qed.

Lemma extends_throw {A} (e : exn) : extends (@throw A e).
Proof. intros sent. exists []. simpl. now rewrite app_nil_r. Qed.

Lemma extends_lift {A} (r : result A) : extends (lift r).
Proof. intros sent. exists []. simpl. now rewrite app_nil_r. Qed.

Lemma extends_fetch (net : network) (req : request) : extends (fetch net req).
Proof.
  intros sent. exists [req]. unfold fetch.
  destruct (net (sent ++ [req])%list); reflexivity.
Qed.

Lemma extends_bind {A B} (c : IO A) (k : A -> IO B) :
  extends c -> (forall a, extends (k a)) -> extends (bind c k).
Proof.
  intros Hc Hk sent. unfold bind.
  destruct (Hc sent) as [m1 E1].
  destruct (c sent) as [[a | e] sent']; simpl in E1; subst sent'.
  - destruct (Hk a (sent ++ m1)%list) as [m2 E2].
    exists (m1 ++ m2)%list. now rewrite E2, app_assoc.
  - exists m1. reflexivity.
Qed.

Lemma extends_try_catch {A} (c : IO A) (handler : exn -> IO A) :
  extends c -> (forall e, extends (handler e)) -> extends (try_catch c handler).
Proof.
  intros Hc Hh sent. unfold try_catch.
  destruct (Hc sent) as [m1 E1].
  destruct (c sent) as [[a | e] sent']; simpl in E1; subst sent'.
  - exists m1. reflexivity.
  - destruct (Hh e (sent ++ m1)%list) as [m2 E2].
    exists (m1 ++ m2)%list. now rewrite E2, app_assoc.
Qed.

Lemma extends_if {A} (b : bool) (c1 c2 : IO A) :
  extends c1 -> extends c2 -> extends (if b then c1 else c2).
Proof. destruct b; auto. Qed.

Lemma starts_with_fetch (net : network) (req : request) :
  starts_with req (fetch net req).
Proof.
  intros sent. exists []. unfold fetch.
  destruct (net (sent ++ [req])%list); reflexivity.
Qed.

Lemma starts_with_bind {A B} (req : request) (c : IO A) (k : A -> IO B) :
  starts_with req c -> (forall a, extends (k a)) -> starts_with req (bind c k).
Proof.
  intros Hc Hk sent. unfold bind.
  destruct (Hc sent) as [m1 E1].
  destruct (c sent) as [[a | e] sent']; simpl in E1; subst sent'.
  - destruct (Hk a (sent ++ req :: m1)%list) as [m2 E2].
    exists (m1 ++ m2)%list. rewrite E2, <- app_assoc. reflexivity.
  - exists m1. reflexivity.
Qed.

Lemma starts_with_try_catch {A} (req : request) (c : IO A) (handler : exn -> IO A) :
  starts_with req c -> (forall e, extends (handler e)) ->
  starts_with req (try_catch c handler).
Proof.
  intros Hc Hh sent. unfold try_catch.
  destruct (Hc sent) as [m1 E1].
  destruct (c sent) as [[a | e] sent']; simpl in E1; subst sent'.
  - exists m1. reflexivity.
  - destruct (Hh e (sent ++ req :: m1)%list) as [m2 E2].
    exists (m1 ++ m2)%list. rewrite E2, <- app_assoc. reflexivity.
Qed.

Lemma bind_ok {A B} (c : IO A) (k : A -> IO B) sent a sent' :
  c sent = (Ok a, sent') -> bind c k sent = k a sent'.
Proof. intros H. unfold bind. rewrite H. reflexivity. Qed.


Lemma bind_lift_ok {A B} (r : result A) (k : A -> IO B) sent a :
  r = Ok a -> bind (lift r) k sent = k a sent.
Proof. intros ->. reflexivity. Qed.

Lemma bind_lift_throw {A B} (r : result A) (k : A -> IO B) sent e :
  r = Throw e -> bind (lift r) k sent = (Throw e, sent).
Proof. intros ->. reflexivity. Qed.

Lemma try_catch_ok {A} (c : IO A) (handler : exn -> IO A) sent a sent' :
  c sent = (Ok a, sent') -> try_catch c handler sent = (Ok a, sent').
Proof. intros H. unfold try_catch. rewrite H. reflexivity. Qed.

Lemma try_catch_recovers {A} (c : IO A) (a : A) sent sent' :
  (exists e, c sent = (Throw e, sent')) ->
  try_catch c (fun _ => ret a) sent = (Ok a, sent').
Proof. intros [e H]. unfold try_catch. rewrite H. reflexivity. Qed.

Create HintDb io.
#[export] Hint Resolve extends_ret extends_throw extends_lift extends_fetch
  extends_bind extends_try_catch extends_if : io.

Ltac yields_step :=
  match goal with
  | |- yields _ (bind _ _) => apply yields_bind; intro
  | |- yields _ (ret _) => apply yields_ret
  | |- yields _ (throw _) => apply yields_throw
  | |- yields _ (if ?b then _ else _) => destruct b
  end.

(** ** Strings and lists *)

Lemma eqb_empty (s : string) : s = "" -> (s =? "") = true.
Proof. intros ->. reflexivity. Qed.

Lemma eqb_nonempty (s : string) : s <> "" -> (s =? "") = false.
Proof. intros H. apply String.eqb_neq. exact H. Qed.

Lemma prefix_gid_not_digits (s : string) :
  String.prefix "gid://" s = true -> digits_only s = false.
Proof.
  intros H. destruct s as [ | c s]; [discriminate H | ].
  assert (c = "g"%char) as ->.
  { cbn [String.prefix] in H.
    destruct (ascii_dec "g"%char c); [congruence | discriminate H]. }
  reflexivity.
Qed.

Lemma split_comma_nonempty (s : string) : split_comma s <> [].
Proof.
  induction s as [ | c s IH]; simpl; [discriminate | ].
  destruct (Ascii.eqb c ","); [discriminate | ].
  destruct (split_comma s); discriminate.
Qed.

Lemma some_false (cb : value -> result bool) (xs : list value) :
  Forall (fun x => cb x = Ok false) xs -> some cb xs = Ok false.
Proof.
  induction 1 as [ | x xs Hx _ IH]; simpl; [reflexivity | ].
  rewrite Hx. exact IH.
Qed.

(** ** The signature verifier *)

Lemma Buffer_from_cons (c : ascii) (s : string) :
  Crypto.Buffer_from (String c s) = (encode_unit c ++ Crypto.Buffer_from s)%list.
Proof.
  unfold encode_unit. cbn [Crypto.Buffer_from].
  destruct (Z.of_N (N_of_ascii c) <? 128)%Z; reflexivity.
Qed.

Lemma decode_encode_unit (c : ascii) (rest : list Z) :
  decode_unit (encode_unit c ++ rest)%list = Some (c, rest).
Proof.
  destruct c as [[|] [|] [|] [|] [|] [|] [|] [|]]; reflexivity.
Qed.

Lemma encode_unit_nonempty (c : ascii) (rest : list Z) :
  (encode_unit c ++ rest)%list <> [].
Proof.
  unfold encode_unit.
  destruct (Z.of_N (N_of_ascii c) <? 128)%Z; discriminate.
Qed.

(** [Buffer.from] loses nothing: two strings with the same bytes are the
    same string. *)
Lemma Buffer_from_injective (s t : string) :
  Crypto.Buffer_from s = Crypto.Buffer_from t -> s = t.
Proof.
  revert t. induction s as [ | c s IH]; intros [ | d t] H.
  - reflexivity.
  - rewrite Buffer_from_cons in H. symmetry in H.
    apply encode_unit_nonempty in H. contradiction.
  - rewrite Buffer_from_cons in H.
    apply encode_unit_nonempty in H. contradiction.
  - rewrite !Buffer_from_cons in H.
    apply (f_equal decode_unit) in H.
    rewrite !decode_encode_unit in H.
    injection H as -> Hrest.
    f_equal. apply IH. exact Hrest.
Qed.

Lemma bytes_eqb_refl (a : list Z) : Crypto.bytes_eqb a a = true.
Proof.
  unfold Crypto.bytes_eqb. rewrite Nat.eqb_refl. simpl.
  induction a as [ | x a IH]; simpl; [reflexivity | ].
  rewrite Z.eqb_refl. exact IH.
Qed.

Lemma bytes_eqb_true (a b : list Z) : Crypto.bytes_eqb a b = true -> a = b.
Proof.
  unfold Crypto.bytes_eqb. revert b.
  induction a as [ | x a IH]; intros [ | y b]; simpl; try discriminate.
  - reflexivity.
  - intros H. apply andb_true_iff in H as [Hlen H].
    apply andb_true_iff in H as [Hxy H].
    apply Z.eqb_eq in Hxy. subst y. f_equal.
    apply IH. rewrite Hlen. exact H.
Qed.

Lemma sha256_length (msg : list Z) : List.length (Crypto.sha256 msg) = 32%nat.
Proof.
  unfold Crypto.sha256.
  generalize (fold_left Crypto.compress
                (Crypto.blocks (List.length (Crypto.padded msg) / 64)
                               (Crypto.padded msg))
                Crypto.initial_hash).
  intros h. reflexivity.
Qed.

Lemma base64_nonempty (bytes : list Z) : bytes <> [] -> Crypto.base64 bytes <> "".
Proof.
  destruct bytes as [ | x [ | y [ | z rest]]]; simpl; intros H;
    [contradiction | discriminate | discriminate | discriminate].
Qed.

(** A digest is never the empty string. *)
Lemma digest_nonempty (secret body : string) :
  Crypto.createHmac_sha256_base64 secret body <> "".
Proof.
  unfold Crypto.createHmac_sha256_base64, Crypto.hmac_sha256.
  apply base64_nonempty. intros H.
  apply (f_equal (@List.length Z)) in H.
  rewrite sha256_length in H. discriminate H.
Qed.

Lemma Buffer_from_app (s t : string) :
  Crypto.Buffer_from (s ++ t)
  = (Crypto.Buffer_from s ++ Crypto.Buffer_from t)%list.
Proof.
  induction s as [ | c s IH]; [reflexivity | ].
  change (String c s ++ t) with (String c (s ++ t)).
  rewrite !Buffer_from_cons, IH, app_assoc. reflexivity.
Qed.

Lemma encode_unit_ascii (c : ascii) :
  is_ascii c = true -> List.length (encode_unit c) = 1%nat.
Proof.
  unfold is_ascii, encode_unit. intros ->. reflexivity.
Qed.

Lemma base64_digit_ascii (i : Z) : is_ascii (Crypto.base64_digit i) = true.
Proof.
  unfold Crypto.base64_digit, Crypto.base64_alphabet.
  generalize (Z.to_nat i). intros n.
  do 64 (destruct n as [ | n]; [reflexivity | ]).
  reflexivity.
Qed.

(** The recursion scheme of [base64]: three bytes at a time. *)
Lemma by_triples (P : list Z -> Prop) :
  P [] ->
  (forall x, P [x]) ->
  (forall x y, P [x; y]) ->
  (forall x y z rest, P rest -> P (x :: y :: z :: rest)) ->
  forall bytes, P bytes.
Proof.
  intros Hnil Hone Htwo Hstep bytes.
  assert (H : P bytes /\ (forall x, P (x :: bytes))
              /\ (forall x y, P (x :: y :: bytes))).
  { induction bytes as [ | b bytes (IH0 & IH1 & IH2)].
    - repeat split; auto.
    - repeat split; auto. }
  exact (proj1 H).
Qed.

(** Every character of a base64 text is below 128. *)
Lemma base64_ascii (bytes : list Z) :
  forallb is_ascii (list_ascii_of_string (Crypto.base64 bytes)) = true.
Proof.
  induction bytes as [ | x | x y | x y z rest IH] using by_triples.
  - reflexivity.
  - cbn [Crypto.base64 list_ascii_of_string forallb].
    rewrite !base64_digit_ascii. reflexivity.
  - cbn [Crypto.base64 list_ascii_of_string forallb].
    rewrite !base64_digit_ascii. reflexivity.
  - cbn [Crypto.base64 list_ascii_of_string forallb].
    rewrite !base64_digit_ascii, IH. reflexivity.
Qed.

Lemma Buffer_from_ascii_length (s : string) :
  forallb is_ascii (list_ascii_of_string s) = true ->
  List.length (Crypto.Buffer_from s) = String.length s.
Proof.
  induction s as [ | c s IH]; [reflexivity | ].
  cbn [list_ascii_of_string forallb String.length].
  intros H. apply andb_true_iff in H as [Hc Hs].
  rewrite Buffer_from_cons, length_app, (encode_unit_ascii c Hc), (IH Hs).
  reflexivity.
Qed.

Lemma base64_length_of_32 (bytes : list Z) :
  List.length bytes = 32%nat -> String.length (Crypto.base64 bytes) = 44%nat.
Proof.
  intros H.
  do 32 (destruct bytes as [ | ? bytes]; [discriminate H | ]).
  destruct bytes; [reflexivity | discriminate H].
Qed.

(** A digest is 44 characters below 128, so 44 bytes. *)
Lemma digest_ascii (secret body : string) :
  forallb is_ascii
    (list_ascii_of_string (Crypto.createHmac_sha256_base64 secret body)) = true.
Proof. apply base64_ascii. Qed.

Lemma digest_byte_length (secret body : string) :
  List.length (Crypto.Buffer_from (Crypto.createHmac_sha256_base64 secret body))
  = 44%nat.
Proof.
  rewrite (Buffer_from_ascii_length _ (digest_ascii secret body)).
  unfold Crypto.createHmac_sha256_base64, Crypto.hmac_sha256.
  apply base64_length_of_32, sha256_length.
Qed.

(** On the bytes of two strings, [timingSafeEqual] returns true exactly
    when the strings are equal. *)
Lemma timingSafeEqual_true_iff (g h : string) :
  Crypto.timingSafeEqual (Crypto.Buffer_from g) (Crypto.Buffer_from h) = Ok true
  <-> g = h.
Proof.
  unfold Crypto.timingSafeEqual. split.
  - destruct (Nat.eqb _ _); [ | discriminate].
    intros Heq. injection Heq as Heq.
    apply Buffer_from_injective, bytes_eqb_true. exact Heq.
  - intros ->. rewrite Nat.eqb_refl, bytes_eqb_refl. reflexivity.
Qed.

Lemma timingSafeEqual_throws (g h : string) :
  List.length (Crypto.Buffer_from h) <> List.length (Crypto.Buffer_from g) ->
  Crypto.timingSafeEqual (Crypto.Buffer_from g) (Crypto.Buffer_from h)
  = Throw RangeError.
Proof.
  intros Hlen. unfold Crypto.timingSafeEqual.
  destruct (Nat.eqb _ _) eqn:E; [ | reflexivity].
  apply Nat.eqb_eq in E. symmetry in E. contradiction.
Qed.

(** The verifier once the bypass is off, the secret is set and the header
    is a non-empty string. *)
Lemma verifier_compares (env : process_env) (body h : string) :
  BYPASS_WEBHOOK_VERIFICATION env = false ->
  SHOPIFY_WEBHOOK_SECRET env <> "" ->
  h <> "" ->
  verifyShopifyWebhook env body (Some h)
  = Crypto.timingSafeEqual
      (Crypto.Buffer_from
         (Crypto.createHmac_sha256_base64 (SHOPIFY_WEBHOOK_SECRET env) body))
      (Crypto.Buffer_from h).
Proof.
  intros Hbypass Hsecret Hh. unfold verifyShopifyWebhook.
  rewrite Hbypass, (eqb_nonempty _ Hsecret).
  unfold header_missing. rewrite (eqb_nonempty _ Hh). reflexivity.
Qed.

Lemma verifier_without_header (env : process_env) (body : string)
      (hmacHeader : option string) :
  BYPASS_WEBHOOK_VERIFICATION env = false ->
  hmacHeader = None \/ hmacHeader = Some "" ->
  verifyShopifyWebhook env body hmacHeader = Ok false.
Proof.
  intros Hbypass Hheader. unfold verifyShopifyWebhook. rewrite Hbypass.
  destruct Hheader as [-> | ->]; unfold header_missing;
    rewrite orb_true_r; reflexivity.
Qed.

(** With the bypass off and a secret configured, the verifier returns true
    exactly for the header that is the base64 HMAC-SHA256 of the body. *)
Lemma verifier_accepts_exactly_the_digest :
  forall (env : process_env) (body : string) (hmacHeader : option string),
    BYPASS_WEBHOOK_VERIFICATION env = false ->
    SHOPIFY_WEBHOOK_SECRET env <> "" ->
    (verifyShopifyWebhook env body hmacHeader = Ok true
     <-> hmacHeader
         = Some (Crypto.createHmac_sha256_base64 (SHOPIFY_WEBHOOK_SECRET env) body)).
Proof.
  intros env body hmacHeader Hbypass Hsecret.
  pose proof (digest_nonempty (SHOPIFY_WEBHOOK_SECRET env) body) as Hdigest.
  destruct hmacHeader as [h | ].
  - destruct (string_dec h "") as [-> | Hh].
    + rewrite (verifier_without_header env body (Some "") Hbypass (or_intror eq_refl)).
      split; [discriminate | ].
      intros Heq. injection Heq as Heq. symmetry in Heq. contradiction.
    + rewrite (verifier_compares env body h Hbypass Hsecret Hh).
      rewrite timingSafeEqual_true_iff.
      split; [intros -> | intros Heq; injection Heq as ->]; reflexivity.
  - rewrite (verifier_without_header env body None Hbypass (or_introl eq_refl)).
    split; discriminate.
Qed.

(** With the bypass on, every input is accepted. *)
Lemma verifier_bypass_accepts_all :
  forall (env : process_env) (body : string) (hmacHeader : option string),
    BYPASS_WEBHOOK_VERIFICATION env = true ->
    verifyShopifyWebhook env body hmacHeader = Ok true.
Proof.
  intros env body hmacHeader Hbypass.
  unfold verifyShopifyWebhook. rewrite Hbypass. reflexivity.
Qed.

(** The verifier does not answer false but throws when the header and the
    digest differ in byte length. *)
Lemma verifier_throws_on_length_mismatch :
  forall (env : process_env) (body h : string),
    BYPASS_WEBHOOK_VERIFICATION env = false ->
    SHOPIFY_WEBHOOK_SECRET env <> "" ->
    h <> "" ->
    List.length (Crypto.Buffer_from h)
    <> List.length
         (Crypto.Buffer_from
            (Crypto.createHmac_sha256_base64 (SHOPIFY_WEBHOOK_SECRET env) body)) ->
    verifyShopifyWebhook env body (Some h) = Throw RangeError.
Proof.
  intros env body h Hbypass Hsecret Hh Hlen.
  rewrite (verifier_compares env body h Hbypass Hsecret Hh).
  apply timingSafeEqual_throws. exact Hlen.
Qed.

Lemma timingSafeEqual_false (g h : string) :
  List.length (Crypto.Buffer_from h) = List.length (Crypto.Buffer_from g) ->
  h <> g ->
  Crypto.timingSafeEqual (Crypto.Buffer_from g) (Crypto.Buffer_from h) = Ok false.
Proof.
  intros Hlen Hneq.
  pose proof (timingSafeEqual_true_iff g h) as Hiff.
  unfold Crypto.timingSafeEqual in *.
  rewrite Hlen, Nat.eqb_refl in *.
  destruct (Crypto.bytes_eqb _ _); [ | reflexivity].
  exfalso. apply Hneq. symmetry. apply Hiff. reflexivity.
Qed.

(** A header of the digest's byte length that is not the digest is
    answered false. *)
Lemma verifier_rejects_other_header_of_digest_length :
  forall (env : process_env) (body h : string),
    BYPASS_WEBHOOK_VERIFICATION env = false ->
    SHOPIFY_WEBHOOK_SECRET env <> "" ->
    List.length (Crypto.Buffer_from h) = 44%nat ->
    h <> Crypto.createHmac_sha256_base64 (SHOPIFY_WEBHOOK_SECRET env) body ->
    verifyShopifyWebhook env body (Some h) = Ok false.
Proof.
  intros env body h Hbypass Hsecret Hlen Hneq.
  assert (Hh : h <> "") by (intros ->; discriminate Hlen).
  rewrite (verifier_compares env body h Hbypass Hsecret Hh).
  apply timingSafeEqual_false; [ | exact Hneq].
  rewrite digest_byte_length. exact Hlen.
Qed.

(** A signature in which one character is replaced by another character
    below 128 is answered false. *)
Lemma verifier_rejects_ascii_mutation_of_signature :
  forall (env : process_env) (body before after : string) (c c' : ascii),
    BYPASS_WEBHOOK_VERIFICATION env = false ->
    SHOPIFY_WEBHOOK_SECRET env <> "" ->
    Crypto.createHmac_sha256_base64 (SHOPIFY_WEBHOOK_SECRET env) body
    = before ++ String c after ->
    c' <> c ->
    is_ascii c' = true ->
    verifyShopifyWebhook env body (Some (before ++ String c' after)) = Ok false.
Proof.
  intros env body before after c c' Hbypass Hsecret Hdigest Hneq Hascii.
  apply verifier_rejects_other_header_of_digest_length; auto.
  - pose proof (digest_byte_length (SHOPIFY_WEBHOOK_SECRET env) body) as Hlen.
    pose proof (digest_ascii (SHOPIFY_WEBHOOK_SECRET env) body) as Hall.
    rewrite Hdigest in Hlen, Hall.
    rewrite Buffer_from_app, Buffer_from_cons, !length_app in Hlen.
    rewrite Buffer_from_app, Buffer_from_cons, !length_app.
    assert (Hc : is_ascii c = true).
    { rewrite forallb_forall in Hall. apply Hall.
      clear. induction before as [ | b before IH]; simpl; auto. }
    rewrite (encode_unit_ascii c Hc) in Hlen.
    rewrite (encode_unit_ascii c' Hascii). exact Hlen.
  - rewrite Hdigest. intros Heq.
    clear - Heq Hneq.
    induction before as [ | b before IH]; simpl in Heq; injection Heq as Heq.
    + contradiction.
    + apply IH. exact Heq.
Qed.

(** The signature of one body, presented with another body, is answered
    false unless the two bodies have the same HMAC-SHA256. *)
Lemma verifier_rejects_signature_of_other_body :
  forall (env : process_env) (body body' : string),
    BYPASS_WEBHOOK_VERIFICATION env = false ->
    SHOPIFY_WEBHOOK_SECRET env <> "" ->
    Crypto.createHmac_sha256_base64 (SHOPIFY_WEBHOOK_SECRET env) body
    <> Crypto.createHmac_sha256_base64 (SHOPIFY_WEBHOOK_SECRET env) body' ->
    verifyShopifyWebhook env body'
      (Some (Crypto.createHmac_sha256_base64 (SHOPIFY_WEBHOOK_SECRET env) body))
    = Ok false.
Proof.
  intros env body body' Hbypass Hsecret Hneq.
  apply verifier_rejects_other_header_of_digest_length; auto.
  apply digest_byte_length.
Qed.

(** C1 (failing input).  The sample cart text, signed under the configured
    secret, is accepted.  Replace the first byte of that signature by the
    byte 233: the header still has 44 characters, but [Buffer.from] turns
    the changed one into two bytes, and the verifier does not return false:
    [crypto.timingSafeEqual] throws a RangeError. *)
Theorem mutated_signature_throws :
  verifyShopifyWebhook Sample.configured (text Sample.cart_delivery)
    (hmac_header Sample.cart_delivery) = Ok true
  /\ String.length (or_empty (hmac_header Sample.cart_delivery_mutated))
     = String.length (or_empty (hmac_header Sample.cart_delivery))
  /\ verifyShopifyWebhook Sample.configured (text Sample.cart_delivery_mutated)
       (hmac_header Sample.cart_delivery_mutated) = Throw RangeError.
Proof.
  repeat split; vm_compute; reflexivity.
Qed.

(** ** Rejected signatures *)

(** When the verifier answers false, both handlers answer 401 and send
    nothing. *)
Lemma unverified_is_unauthorized :
  forall (env : process_env) (rt : runtime) (net : network)
         (webhook : NextRequest) (sent : list request),
    verifyShopifyWebhook env (text webhook) (hmac_header webhook) = Ok false ->
    CartUpdate.POST env rt net webhook sent
    = (Ok {| status := 401; payload := ErrorBody "Invalid webhook signature" None |},
       sent)
    /\
    OrderUpdate.POST env rt net webhook sent
    = (Ok {| status := 401; payload := ErrorBody "Invalid webhook signature" None |},
       sent).
Proof.
  intros env rt net webhook sent Hverify. split.
  - unfold CartUpdate.POST. apply try_catch_ok.
    rewrite (bind_lift_ok _ _ _ _ Hverify). reflexivity.
  - unfold OrderUpdate.POST. apply try_catch_ok.
    rewrite (bind_lift_ok _ _ _ _ Hverify). reflexivity.
Qed.

(** When the verifier throws, both handlers answer 500 and send nothing. *)
Lemma verifier_exception_is_500 :
  forall (env : process_env) (rt : runtime) (net : network)
         (webhook : NextRequest) (sent : list request) (e : exn),
    verifyShopifyWebhook env (text webhook) (hmac_header webhook) = Throw e ->
    CartUpdate.POST env rt net webhook sent
    = (Ok {| status := 500;
             payload := ErrorBody "Error processing webhook" (Some (DetailsError e)) |},
       sent)
    /\
    OrderUpdate.POST env rt net webhook sent
    = (Ok {| status := 500;
             payload := ErrorBody "Error processing webhook" (Some (DetailsError e)) |},
       sent).
Proof.
  intros env rt net webhook sent e Hverify. split.
  - unfold CartUpdate.POST, try_catch.
    rewrite (bind_lift_throw _ _ _ _ Hverify). reflexivity.
  - unfold OrderUpdate.POST, try_catch.
    rewrite (bind_lift_throw _ _ _ _ Hverify). reflexivity.
Qed.

Lemma verifier_without_secret (env : process_env) (body : string)
      (hmacHeader : option string) :
  BYPASS_WEBHOOK_VERIFICATION env = false ->
  SHOPIFY_WEBHOOK_SECRET env = "" ->
  verifyShopifyWebhook env body hmacHeader = Ok false.
Proof.
  intros Hbypass Hsecret. unfold verifyShopifyWebhook.
  rewrite Hbypass, Hsecret. reflexivity.
Qed.

(** The part of C4 that holds.  With the bypass off, a request is answered
    401, and nothing is sent, when the secret is not configured, when the
    header is missing or empty, and when the header has the byte length of
    a digest (44) without being the digest of the body. *)
Lemma bad_signature_of_digest_length_is_unauthorized :
  forall (env : process_env) (rt : runtime) (net : network)
         (webhook : NextRequest) (sent : list request),
    BYPASS_WEBHOOK_VERIFICATION env = false ->
    (SHOPIFY_WEBHOOK_SECRET env = ""
     \/ hmac_header webhook = None
     \/ hmac_header webhook = Some ""
     \/ exists h,
          hmac_header webhook = Some h
          /\ List.length (Crypto.Buffer_from h) = 44%nat
          /\ h <> Crypto.createHmac_sha256_base64 (SHOPIFY_WEBHOOK_SECRET env)
                    (text webhook)) ->
    status_of (CartUpdate.POST env rt net webhook sent) = Some 401%Z
    /\ snd (CartUpdate.POST env rt net webhook sent) = sent
    /\ status_of (OrderUpdate.POST env rt net webhook sent) = Some 401%Z
    /\ snd (OrderUpdate.POST env rt net webhook sent) = sent.
Proof.
  intros env rt net webhook sent Hbypass Hbad.
  assert (Hverify :
    verifyShopifyWebhook env (text webhook) (hmac_header webhook) = Ok false).
  { destruct (string_dec (SHOPIFY_WEBHOOK_SECRET env) "") as [Hsecret | Hsecret].
    - apply verifier_without_secret; assumption.
    - destruct Hbad as [Hempty | [Hnone | [Hblank | (h & Hheader & Hlen & Hneq)]]].
      + contradiction.
      + apply verifier_without_header; auto.
      + apply verifier_without_header; auto.
      + rewrite Hheader.
        apply verifier_rejects_other_header_of_digest_length; assumption. }
  destruct (unverified_is_unauthorized env rt net webhook sent Hverify)
    as [Hcart Horder].
  unfold status_of. rewrite Hcart, Horder. repeat split.
Qed.

(** What breaks C4.  With the bypass off and the secret configured, a
    non-empty header of any other byte length is answered 500. *)
Lemma signature_of_other_length_is_500 :
  forall (env : process_env) (rt : runtime) (net : network)
         (webhook : NextRequest) (sent : list request) (h : string),
    BYPASS_WEBHOOK_VERIFICATION env = false ->
    SHOPIFY_WEBHOOK_SECRET env <> "" ->
    hmac_header webhook = Some h ->
    h <> "" ->
    List.length (Crypto.Buffer_from h) <> 44%nat ->
    status_of (CartUpdate.POST env rt net webhook sent) = Some 500%Z
    /\ snd (CartUpdate.POST env rt net webhook sent) = sent
    /\ status_of (OrderUpdate.POST env rt net webhook sent) = Some 500%Z
    /\ snd (OrderUpdate.POST env rt net webhook sent) = sent.
Proof.
  intros env rt net webhook sent h Hbypass Hsecret Hheader Hh Hlen.
  assert (Hverify :
    verifyShopifyWebhook env (text webhook) (hmac_header webhook)
    = Throw RangeError).
  { rewrite Hheader. apply verifier_throws_on_length_mismatch; auto.
    rewrite digest_byte_length. exact Hlen. }
  destruct (verifier_exception_is_500 env rt net webhook sent RangeError Hverify)
    as [Hcart Horder].
  unfold status_of. rewrite Hcart, Horder. repeat split.
Qed.

(** C4 (failing input).  The sample cart and the sample order, delivered
    with the three-character signature header "abc" to the configured
    routes (bypass off): the header does not verify, no request is sent,
    but the status is 500 with the RangeError of [crypto.timingSafeEqual]
    as details, not 401. *)
Theorem short_signature_answered_with_500 :
  CartUpdate.POST Sample.configured (Sample.parsing Sample.cart)
    Sample.unreachable Sample.cart_delivery_short []
  = (Ok {| status := 500;
           payload := ErrorBody "Error processing webhook"
                                (Some (DetailsError RangeError)) |},
     [])
  /\
  OrderUpdate.POST Sample.configured (Sample.parsing Sample.order)
    Sample.unreachable Sample.order_delivery_short []
  = (Ok {| status := 500;
           payload := ErrorBody "Error processing webhook"
                                (Some (DetailsError RangeError)) |},
     []).
Proof.
  split; vm_compute; reflexivity.
Qed.

(** ** The trigger predicate *)


(** The half of C5 that holds: with the line items empty or absent (or not
    an array), the trigger predicate of either route returns false,
    whatever the trigger list. *)
Lemma no_line_items_no_trigger :
  forall (env : process_env) (payload : value),
    (forall items, get_opt payload "items" = VArr items -> items = []) ->
    (forall items, get_opt payload "line_items" = VArr items -> items = []) ->
    CartUpdate.hasTriggerProduct env payload = Ok false
    /\ (nullish payload = false ->
        OrderUpdate.hasTriggerProduct env payload = Ok false).
Proof.
  intros env payload Hitems Hlines. split.
  - unfold CartUpdate.hasTriggerProduct.
    destruct (get_opt payload "items") as [ | | b | n | s | items | fields];
      try reflexivity.
    + destruct (truthy (VBool b)); reflexivity.
    + destruct (truthy (VNum n)); reflexivity.
    + destruct (truthy (VStr s)); reflexivity.
    + rewrite (Hitems items eq_refl).
      destruct (_ || _); reflexivity.
  - intros Hpayload. unfold OrderUpdate.hasTriggerProduct, get.
    rewrite Hpayload. simpl rbind.
    unfold get_opt in Hlines. rewrite Hpayload in Hlines.
    destruct (member payload "line_items") as [ | | b | n | s | items | fields];
      try reflexivity.
    + destruct (truthy (VBool b)); reflexivity.
    + destruct (truthy (VNum n)); reflexivity.
    + destruct (truthy (VStr s)); reflexivity.
    + rewrite (Hlines items eq_refl).
      destruct (_ || _); reflexivity.
Qed.

Lemma number_to_string_nonempty (n : Z) : number_to_string n <> "".
Proof.
  unfold number_to_string.
  destruct (Z.to_int n) as [d | d]; simpl.
  - destruct d; discriminate.
  - discriminate.
Qed.

(** A truthy identifier never renders as the empty string. *)
Lemma truthy_identifier_not_blank (v : value) :
  declared_identifier v -> truthy v = true -> (ToString v =? "") = false.
Proof.
  destruct v as [ | | b | n | s | xs | fields]; simpl;
    try contradiction; try discriminate; intros _ H.
  - apply String.eqb_neq, number_to_string_nonempty.
  - destruct (s =? ""); [discriminate H | reflexivity].
Qed.

(** In the current order route the blank trigger list matches nothing:
    the route skips falsy product identifiers, and no truthy string or
    number renders as the empty string. *)
Lemma order_blank_trigger_list_matches_nothing :
  forall (env : process_env) (order : value) (items : list value),
    or_empty (env_TRIGGER_VARIANT_IDS env) = "" ->
    get order "line_items" = Ok (VArr items) ->
    Forall (fun item => nullish item = false
                        /\ declared_identifier (member item "product_id")) items ->
    OrderUpdate.hasTriggerProduct env order = Ok false.
Proof.
  intros env order items Hblank Hget Hitems.
  unfold OrderUpdate.hasTriggerProduct, OrderUpdate.TRIGGER_VARIANT_IDS.
  rewrite Hget, Hblank.
  cbn [rbind truthy isArray negb orb elements split_comma List.length Nat.eqb].
  apply some_false.
  apply Forall_impl with (2 := Hitems).
  intros item [Hitem Hid]. unfold get. rewrite Hitem. cbn [rbind]. f_equal.
  destruct (truthy (member item "product_id")) eqn:Htruthy; [ | reflexivity].
  unfold includes. cbn [existsb andb].
  rewrite (truthy_identifier_not_blank _ Hid Htruthy). reflexivity.
Qed.

(** C5 (failing input).  TRIGGER_VARIANT_IDS unset, or set to the empty
    string: the trigger list is [['']], not empty.  The cart
    [{"id":"c1","items":[{"variant_id":"","quantity":1}]}] then has a
    trigger product, and its signed delivery makes the cart route send the
    add-line request. *)
Theorem blank_trigger_list_matches_blank_variant :
  CartUpdate.TRIGGER_VARIANT_IDS Sample.no_triggers = [""]
  /\ CartUpdate.hasTriggerProduct Sample.no_triggers Sample.cart_blank_variant
     = Ok true
  /\ CartUpdate.hasTriggerProduct Sample.blank_triggers Sample.cart_blank_variant
     = Ok true
  /\ snd (CartUpdate.POST Sample.no_triggers
            (Sample.parsing Sample.cart_blank_variant)
            (Sample.answering VNull) Sample.blank_variant_delivery [])
     = [cart_request Sample.no_triggers (VStr "c1")].
Proof.
  repeat split; vm_compute; reflexivity.
Qed.

(** ** The presence predicate of the order route *)









(** The first revision of the route compared [product_id] only: there a
    variant-only match is not found. *)
Lemma initial_hasOGPack_reads_product_only :
  OrderUpdateInitial.hasOGPack Sample.configured
    (Sample.order_with (VObj [("variant_id", VStr "OG1"); ("product_id", VStr "P7")]))
  = Ok false.
Proof. reflexivity. Qed.

(** ** Missing configuration *)

(** C9. When the access token (storefront for the cart route, admin for the
    order route) or the target variant identifier is the empty string, the
    mutation function returns null at once and the list of requests sent
    is unchanged: no outbound request is issued. *)
Theorem missing_configuration_returns_null :
  forall (env : process_env) (rt : runtime) (net : network)
         (id : value) (sent : list request),
    (CartUpdate.SHOPIFY_STOREFRONT_ACCESS_TOKEN env = ""
     \/ CartUpdate.HIDDEN_VARIANT_ID env = "" ->
     CartUpdate.addHiddenProductToCart env net id sent = (Ok VNull, sent))
    /\
    (OrderUpdate.SHOPIFY_ADMIN_API_KEY env = ""
     \/ OrderUpdate.OG_VARIANT_ID env = "" ->
     OrderUpdate.addFreeItemToOrder env rt net id sent = (Ok VNull, sent)).
Proof.
  intros env rt net id sent. split; intros [H | H].
  - unfold CartUpdate.addHiddenProductToCart.
    rewrite (eqb_empty _ H). reflexivity.
  - unfold CartUpdate.addHiddenProductToCart.
    rewrite (eqb_empty _ H), orb_true_r. reflexivity.
  - unfold OrderUpdate.addFreeItemToOrder.
    rewrite (eqb_empty _ H). reflexivity.
  - unfold OrderUpdate.addFreeItemToOrder.
    rewrite (eqb_empty _ H), orb_true_r. reflexivity.
Qed.

(** With both tokens empty, neither function sends anything, whatever the
    remote side would have answered. *)
Lemma missing_configuration_witness :
  CartUpdate.addHiddenProductToCart Sample.no_tokens
    (Sample.answering Sample.cart_userErrors) (VStr "c1") [] = (Ok VNull, [])
  /\
  OrderUpdate.addFreeItemToOrder Sample.no_tokens (Sample.parsing Sample.order)
    (Sample.answering Sample.begin_userErrors) (VNum 5380452647120) []
  = (Ok VNull, []).
Proof.
  split.
  - apply (proj1 (missing_configuration_returns_null Sample.no_tokens
                    (Sample.parsing Sample.order)
                    (Sample.answering Sample.cart_userErrors) (VStr "c1") [])).
    left. reflexivity.
  - apply (proj2 (missing_configuration_returns_null Sample.no_tokens
                    (Sample.parsing Sample.order)
                    (Sample.answering Sample.begin_userErrors)
                    (VNum 5380452647120) [])).
    left. reflexivity.
Defined.

(** ** The cart mutation *)

(** C6, counterexample.  A 200 response whose body lists a user error is a
    failed call, yet addHiddenProductToCart returns that body, not null. *)
Lemma user_errors_are_returned_not_null : ~ null_on_every_failure.
Proof.
  intros Hclaim.
  specialize (Hclaim Sample.configured (Sample.parsing Sample.cart)
                (Sample.answering Sample.cart_userErrors) (VStr "c1") []).
  assert (Hfailed :
    cart_call_failed (Sample.parsing Sample.cart)
      (Sample.answering Sample.cart_userErrors
         ([] ++ [cart_request Sample.configured (VStr "c1")])%list)).
  { right. exists Sample.cart_userErrors. split; reflexivity. }
  specialize (Hclaim Hfailed). vm_compute in Hclaim. discriminate Hclaim.
Qed.

(** C6, amended.  With the storefront token and the hidden variant
    configured, addHiddenProductToCart sends exactly one request (no retry).
    It returns null when fetch rejects, when the status is outside 2xx, and
    when the body is not JSON; otherwise it returns the parsed body as it
    is, whether or not that body lists user errors. *)
Theorem addHiddenProductToCart_outcomes :
  forall (env : process_env) (net : network) (cartId : value)
         (sent : list request),
    CartUpdate.SHOPIFY_STOREFRONT_ACCESS_TOKEN env <> "" ->
    CartUpdate.HIDDEN_VARIANT_ID env <> "" ->
    let req := cart_request env cartId in
    let run := CartUpdate.addHiddenProductToCart env net cartId sent in
    snd run = (sent ++ [req])%list
    /\ (net (sent ++ [req])%list = Rejected -> fst run = Ok VNull)
    /\ (forall r, net (sent ++ [req])%list = Resolved r ->
                  ok r = false -> fst run = Ok VNull)
    /\ (forall r, net (sent ++ [req])%list = Resolved r ->
                  ok r = true -> http_json r = None -> fst run = Ok VNull)
    /\ (forall r v, net (sent ++ [req])%list = Resolved r ->
                    ok r = true -> http_json r = Some v -> fst run = Ok v).
Proof.
  intros env net cartId sent Htoken Hhidden req run.
  subst run. unfold CartUpdate.addHiddenProductToCart.
  rewrite (eqb_nonempty _ Htoken), (eqb_nonempty _ Hhidden).
  change (false || false) with false. cbv iota.
  fold (cart_request env cartId). fold req.
  unfold try_catch, bind, fetch.
  destruct (net (sent ++ [req])%list) as [ | r] eqn:Hnet.
  - simpl. repeat split; intros; congruence.
  - destruct (ok r) eqn:Hok; cbn [negb].
    + unfold lift, response_json.
      destruct (http_json r) as [v | ] eqn:Hjson; simpl;
        repeat split; intros; congruence.
    + simpl. repeat split; intros; congruence.
Qed.

(** The configured route against a remote side that answers 200 with a
    user error: one request, and the body comes back. *)
Lemma addHiddenProductToCart_witness :
  snd (CartUpdate.addHiddenProductToCart Sample.configured
         (Sample.answering Sample.cart_userErrors) (VStr "c1") [])
  = [cart_request Sample.configured (VStr "c1")]
  /\
  fst (CartUpdate.addHiddenProductToCart Sample.configured
         (Sample.answering Sample.cart_userErrors) (VStr "c1") [])
  = Ok Sample.cart_userErrors.
Proof.
  assert (Htoken : CartUpdate.SHOPIFY_STOREFRONT_ACCESS_TOKEN Sample.configured <> "")
    by (vm_compute; discriminate).
  assert (Hhidden : CartUpdate.HIDDEN_VARIANT_ID Sample.configured <> "")
    by (vm_compute; discriminate).
  destruct (addHiddenProductToCart_outcomes Sample.configured
              (Sample.answering Sample.cart_userErrors) (VStr "c1") []
              Htoken Hhidden) as (Hsent & _ & _ & _ & Hbody).
  split; [exact Hsent | ].
  apply (Hbody {| http_status := 200; http_json := Some Sample.cart_userErrors |}
               Sample.cart_userErrors); reflexivity.
Defined.

(** ** The order-edit transaction *)

Lemma extends_send (env : process_env) (net : network) (query : graphql) :
  extends (OrderUpdate.send env net query).
Proof.
  unfold OrderUpdate.send. apply extends_bind; auto with io.
Qed.

#[export] Hint Resolve extends_send : io.

Ltac extends_all :=
  repeat first
    [ apply extends_ret | apply extends_throw | apply extends_lift
    | apply extends_send | apply extends_fetch
    | apply extends_bind | apply extends_if | intro ].

Lemma addFreeItemToOrder_starts_with_begin :
  forall env rt net orderId,
    OrderUpdate.SHOPIFY_ADMIN_API_KEY env <> "" ->
    OrderUpdate.OG_VARIANT_ID env <> "" ->
    starts_with (begin_request env orderId)
                (OrderUpdate.addFreeItemToOrder env rt net orderId).
Proof.
  intros env rt net orderId Hkey Hog.
  unfold OrderUpdate.addFreeItemToOrder.
  rewrite (eqb_nonempty _ Hkey), (eqb_nonempty _ Hog). simpl.
  apply starts_with_try_catch; [ | intro; apply extends_ret ].
  apply starts_with_bind.
  - unfold OrderUpdate.send. apply starts_with_bind.
    + apply starts_with_fetch.
    + extends_all.
  - extends_all.
Qed.

(** The test route settles the order GID from the whole order: a global
    identifier in [admin_graphql_api_id] is kept as it is; otherwise a
    truthy [order.id] is put into gid://shopify/Order/<id>. *)
Lemma test_route_orderGid :
  forall (order : value),
    nullish order = false ->
    (forall s, member order "admin_graphql_api_id" = VStr s ->
               String.prefix "gid://" s = true ->
               TestOrder.orderGid order = Ok (VStr s))
    /\
    (truthy (member order "admin_graphql_api_id") = false ->
     truthy (member order "id") = true ->
     TestOrder.orderGid order
     = Ok (VStr ("gid://shopify/Order/" ++ ToString (member order "id")))).
Proof.
  intros order Horder. unfold TestOrder.orderGid, get. rewrite Horder.
  split.
  - intros s Hadmin Hgid. simpl rbind. rewrite Hadmin.
    assert (Hs : truthy (VStr s) = true).
    { destruct s; [discriminate Hgid | reflexivity]. }
    rewrite Hs, Hgid. cbn [rbind]. rewrite Hs. reflexivity.
  - intros Hadmin Hid. simpl rbind. rewrite Hadmin. cbn [rbind].
    rewrite Hid. reflexivity.
Qed.

(** C8. For every order identifier passed to addFreeItemToOrder (with the
    admin token and the target configured, so that the transaction starts),
    the first request sent is the begin call, and the identifier in it is
    gid://shopify/Order/<id> when the identifier is a number or a string of
    decimal digits, and the identifier itself when it is a string already in
    gid:// form.  In the test route, whose addFreeItemToOrder takes the
    whole order, a global identifier in [admin_graphql_api_id] is kept and
    otherwise a truthy [order.id] is put into gid://shopify/Order/<id>. *)
Theorem order_id_becomes_gid_before_begin :
  forall (env : process_env) (rt : runtime) (net : network)
         (orderId : value) (sent : list request),
    OrderUpdate.SHOPIFY_ADMIN_API_KEY env <> "" ->
    OrderUpdate.OG_VARIANT_ID env <> "" ->
    (forall n, orderId = VNum n ->
       exists more,
         snd (OrderUpdate.addFreeItemToOrder env rt net orderId sent)
         = (sent ++ admin_request env
                      (orderEditBegin ("gid://shopify/Order/" ++ number_to_string n))
                 :: more)%list)
    /\
    (forall s, orderId = VStr s -> digits_only s = true ->
       exists more,
         snd (OrderUpdate.addFreeItemToOrder env rt net orderId sent)
         = (sent ++ admin_request env (orderEditBegin ("gid://shopify/Order/" ++ s))
                 :: more)%list)
    /\
    (forall s, orderId = VStr s -> String.prefix "gid://" s = true ->
       exists more,
         snd (OrderUpdate.addFreeItemToOrder env rt net orderId sent)
         = (sent ++ admin_request env (orderEditBegin s) :: more)%list)
    /\
    (forall order s,
       nullish order = false ->
       member order "admin_graphql_api_id" = VStr s ->
       String.prefix "gid://" s = true ->
       TestOrder.orderGid order = Ok (VStr s))
    /\
    (forall order,
       nullish order = false ->
       truthy (member order "admin_graphql_api_id") = false ->
       truthy (member order "id") = true ->
       TestOrder.orderGid order
       = Ok (VStr ("gid://shopify/Order/" ++ ToString (member order "id")))).
Proof.
  intros env rt net orderId sent Hkey Hog.
  pose proof (addFreeItemToOrder_starts_with_begin env rt net orderId Hkey Hog sent)
    as Hbegin.
  unfold begin_request, OrderUpdate.orderGid in Hbegin.
  split; [ | split; [ | split; [ | split]]].
  - intros n ->. exact Hbegin.
  - intros s -> Hdigits. simpl in Hbegin. rewrite Hdigits in Hbegin. exact Hbegin.
  - intros s -> Hgid. simpl in Hbegin.
    rewrite (prefix_gid_not_digits s Hgid) in Hbegin. exact Hbegin.
  - intros order s Horder. apply (proj1 (test_route_orderGid order Horder)).
  - intros order Horder. apply (proj2 (test_route_orderGid order Horder)).
Qed.

(** A numeric identifier, a digit string and a global identifier, each
    against the configured route and an unreachable remote side; and the
    hardcoded order of the test route. *)
Lemma order_id_becomes_gid_witness :
  (exists more,
      snd (OrderUpdate.addFreeItemToOrder Sample.configured
             (Sample.parsing Sample.order) Sample.unreachable
             (VNum 5380452647120) [])
      = admin_request Sample.configured
          (orderEditBegin "gid://shopify/Order/5380452647120") :: more)
  /\
  (exists more,
      snd (OrderUpdate.addFreeItemToOrder Sample.configured
             (Sample.parsing Sample.order) Sample.unreachable
             (VStr "450789469") [])
      = admin_request Sample.configured
          (orderEditBegin "gid://shopify/Order/450789469") :: more)
  /\
  (exists more,
      snd (OrderUpdate.addFreeItemToOrder Sample.configured
             (Sample.parsing Sample.order) Sample.unreachable
             (VStr "gid://shopify/Order/450789469") [])
      = admin_request Sample.configured
          (orderEditBegin "gid://shopify/Order/450789469") :: more)
  /\
  TestOrder.orderGid TestOrder.testOrder
  = Ok (VStr "gid://shopify/Order/5380452647120").
Proof.
  assert (Hkey : OrderUpdate.SHOPIFY_ADMIN_API_KEY Sample.configured <> "")
    by (vm_compute; discriminate).
  assert (Hog : OrderUpdate.OG_VARIANT_ID Sample.configured <> "")
    by (vm_compute; discriminate).
  split; [ | split; [ | split]].
  - apply (proj1 (order_id_becomes_gid_before_begin Sample.configured
                    (Sample.parsing Sample.order) Sample.unreachable
                    (VNum 5380452647120) [] Hkey Hog) 5380452647120%Z).
    reflexivity.
  - apply (proj1 (proj2 (order_id_becomes_gid_before_begin Sample.configured
                    (Sample.parsing Sample.order) Sample.unreachable
                    (VStr "450789469") [] Hkey Hog)) "450789469").
    + reflexivity.
    + reflexivity.
  - apply (proj1 (proj2 (proj2 (order_id_becomes_gid_before_begin Sample.configured
                    (Sample.parsing Sample.order) Sample.unreachable
                    (VStr "gid://shopify/Order/450789469") [] Hkey Hog)))
             "gid://shopify/Order/450789469").
    + reflexivity.
    + reflexivity.
  - apply (proj1 (proj2 (proj2 (proj2 (order_id_becomes_gid_before_begin
                    Sample.configured (Sample.parsing Sample.order)
                    Sample.unreachable (VNum 0) [] Hkey Hog))))
             TestOrder.testOrder "gid://shopify/Order/5380452647120").
    + reflexivity.
    + reflexivity.
    + reflexivity.
Defined.

Lemma nonempty_array_has_length (rt : runtime) (e : value) (es : list value) :
  truthy (VArr (e :: es)) && gt_zero rt (member (VArr (e :: es)) "length") = true.
Proof.
  cbn [truthy andb member gt_zero]. simpl String.eqb.
  apply Z.ltb_lt. cbn [List.length]. lia.
Qed.

(** After a begin response that is refused, the rest of the [try] block
    throws: either on reading the response, or because errors are
    reported, or because the session token is missing. *)
Lemma refused_begin_throws (rt : runtime) (v : value) :
  begin_refused v ->
  match OrderUpdate.reports_errors rt v "orderEditBegin" with
  | Throw _ => True
  | Ok true => True
  | Ok false =>
      exists token,
        OrderUpdate.returned_id v "orderEditBegin" "calculatedOrder" = Ok token
        /\ truthy token = false
  end.
Proof.
  intros Hrefused.
  unfold OrderUpdate.reports_errors, OrderUpdate.returned_id, get.
  destruct (nullish v) eqn:Hv; simpl; [exact I | ].
  destruct (truthy (member v "errors")); simpl; [exact I | ].
  destruct Hrefused as [(e & es & Herr) | Htoken].
  - unfold begin_userErrors_of, get_opt in Herr. rewrite Hv in Herr.
    unfold get_opt. rewrite Herr.
    rewrite nonempty_array_has_length. exact I.
  - unfold begin_token_of in Htoken.
    unfold get_opt at 4 in Htoken. rewrite Hv in Htoken.
    match goal with
    | |- if ?b then _ else _ => destruct b
    end; [exact I | ].
    eexists. split; [reflexivity | exact Htoken].
Qed.

Lemma send_answered (env : process_env) (net : network) (query : graphql)
      (sent : list request) (r : Response) (v : value) :
  net (sent ++ [admin_request env query])%list = Resolved r ->
  ok r = true ->
  http_json r = Some v ->
  OrderUpdate.send env net query sent
  = (Ok v, (sent ++ [admin_request env query])%list).
Proof.
  intros Hnet Hok Hjson. unfold OrderUpdate.send.
  fold (admin_request env query).
  rewrite (bind_ok _ _ sent r (sent ++ [admin_request env query])%list).
  - rewrite Hok. unfold lift, response_json. rewrite Hjson. reflexivity.
  - unfold fetch. rewrite Hnet. reflexivity.
Qed.

(** The order handler answers 500 whenever addFreeItemToOrder returns null. *)
Lemma order_null_result_is_500 :
  forall (env : process_env) (rt : runtime) (net : network)
         (webhook : NextRequest) (order : value) (sent sent' : list request),
    verifyShopifyWebhook env (text webhook) (hmac_header webhook) = Ok true ->
    parse_json rt (text webhook) = Ok order ->
    OrderUpdate.log_order order = Ok tt ->
    OrderUpdate.hasTriggerProduct env order = Ok true ->
    OrderUpdate.hasOGPack env order = Ok false ->
    truthy (order_identifier order) = true ->
    OrderUpdate.addFreeItemToOrder env rt net (order_identifier order) sent
    = (Ok VNull, sent') ->
    OrderUpdate.POST env rt net webhook sent
    = (Ok {| status := 500;
             payload := ErrorBody "Failed to add free item to order"
                          (Some (DetailsValue (VStr "Unknown error"))) |},
       sent').
Proof.
  intros env rt net webhook order sent sent'
         Hverified Hparse Hlog Htrigger Hpack Htruthy Hnull.
  assert (Horder : nullish order = false).
  { unfold OrderUpdate.log_order, get in Hlog.
    destruct (nullish order); [discriminate Hlog | reflexivity]. }
  assert (Hget : forall p, get order p = Ok (member order p)).
  { intros p. unfold get. rewrite Horder. reflexivity. }
  unfold OrderUpdate.POST. apply try_catch_ok.
  rewrite (bind_lift_ok _ _ _ _ Hverified). cbn [negb].
  rewrite (bind_lift_ok _ _ _ _ Hparse).
  rewrite (bind_lift_ok _ _ _ _ Hlog).
  rewrite (bind_lift_ok _ _ _ _ Htrigger).
  rewrite Hpack. simpl rbind.
  rewrite (bind_lift_ok _ _ _ true eq_refl).
  rewrite (bind_lift_ok _ _ _ _ (Hget "id")).
  rewrite (bind_ok _ _ sent (order_identifier order) sent).
  - rewrite Htruthy. cbn [negb].
    rewrite (bind_ok _ _ _ _ _ Hnull). reflexivity.
  - unfold order_identifier, js_or.
    destruct (truthy (member order "id")).
    + reflexivity.
    + rewrite (Hget "admin_graphql_api_id"). reflexivity.
Qed.

(** C7. In the order-edit transaction (admin token and target configured),
    when the begin call is answered with a user error or without the
    session token, addFreeItemToOrder returns null having sent the begin
    request and nothing after it; and a webhook that reached the
    transaction (verified, trigger present, target absent, order identifier
    present) is answered with status 500, again with the begin request as
    the only request sent. *)
Theorem begin_failure_aborts_transaction :
  forall (env : process_env) (rt : runtime) (net : network)
         (orderId : value) (sent : list request) (r : Response) (v : value),
    OrderUpdate.SHOPIFY_ADMIN_API_KEY env <> "" ->
    OrderUpdate.OG_VARIANT_ID env <> "" ->
    net (sent ++ [begin_request env orderId])%list = Resolved r ->
    ok r = true ->
    http_json r = Some v ->
    begin_refused v ->
    OrderUpdate.addFreeItemToOrder env rt net orderId sent
    = (Ok VNull, (sent ++ [begin_request env orderId])%list)
    /\
    forall (webhook : NextRequest) (order : value),
      verifyShopifyWebhook env (text webhook) (hmac_header webhook) = Ok true ->
      parse_json rt (text webhook) = Ok order ->
      OrderUpdate.log_order order = Ok tt ->
      OrderUpdate.hasTriggerProduct env order = Ok true ->
      OrderUpdate.hasOGPack env order = Ok false ->
      order_identifier order = orderId ->
      truthy orderId = true ->
      exists response,
        OrderUpdate.POST env rt net webhook sent
        = (Ok response, (sent ++ [begin_request env orderId])%list)
        /\ status response = 500%Z.
Proof.
  intros env rt net orderId sent r v Hkey Hog Hnet Hok Hjson Hrefused.
  assert (Hnull :
    OrderUpdate.addFreeItemToOrder env rt net orderId sent
    = (Ok VNull, (sent ++ [begin_request env orderId])%list)).
  { unfold OrderUpdate.addFreeItemToOrder.
    rewrite (eqb_nonempty _ Hkey), (eqb_nonempty _ Hog).
    change (false || false) with false. cbv iota.
    apply try_catch_recovers.
    rewrite (bind_ok _ _ _ _ _ (send_answered env net _ sent r v Hnet Hok Hjson)).
    fold (begin_request env orderId).
    pose proof (refused_begin_throws rt v Hrefused) as Hthrow.
    destruct (OrderUpdate.reports_errors rt v "orderEditBegin")
      as [[ | ] | e] eqn:Hreport.
    - rewrite (bind_lift_ok _ _ _ true eq_refl). eexists. reflexivity.
    - rewrite (bind_lift_ok _ _ _ false eq_refl).
      destruct Hthrow as (token & Htoken & Hfalsy).
      rewrite (bind_lift_ok _ _ _ _ Htoken), Hfalsy. eexists. reflexivity.
    - rewrite (bind_lift_throw _ _ _ e eq_refl). eexists. reflexivity. }
  split; [exact Hnull | ].
  intros webhook order Hverified Hparse Hlog Htrigger Hpack Hid Htruthy.
  subst orderId. eexists. split.
  - apply (order_null_result_is_500 env rt net webhook order sent _
             Hverified Hparse Hlog Htrigger Hpack Htruthy Hnull).
  - reflexivity.
Qed.

(** The signed delivery of the sample order, with a remote side that
    answers the begin call with a user error, and with one that answers
    it without a session token. *)
Lemma begin_failure_witness :
  (OrderUpdate.addFreeItemToOrder Sample.configured (Sample.parsing Sample.order)
     (Sample.answering Sample.begin_userErrors) (VNum 5380452647120) []
   = (Ok VNull, [begin_request Sample.configured (VNum 5380452647120)])
   /\
   exists response,
     OrderUpdate.POST Sample.configured (Sample.parsing Sample.order)
       (Sample.answering Sample.begin_userErrors) Sample.order_delivery []
     = (Ok response, [begin_request Sample.configured (VNum 5380452647120)])
     /\ status response = 500%Z)
  /\
  (OrderUpdate.addFreeItemToOrder Sample.configured (Sample.parsing Sample.order)
     (Sample.answering Sample.begin_without_token) (VNum 5380452647120) []
   = (Ok VNull, [begin_request Sample.configured (VNum 5380452647120)])
   /\
   exists response,
     OrderUpdate.POST Sample.configured (Sample.parsing Sample.order)
       (Sample.answering Sample.begin_without_token) Sample.order_delivery []
     = (Ok response, [begin_request Sample.configured (VNum 5380452647120)])
     /\ status response = 500%Z).
Proof.
  assert (Hkey : OrderUpdate.SHOPIFY_ADMIN_API_KEY Sample.configured <> "")
    by (vm_compute; discriminate).
  assert (Hog : OrderUpdate.OG_VARIANT_ID Sample.configured <> "")
    by (vm_compute; discriminate).
  assert (Hverified :
    verifyShopifyWebhook Sample.configured (text Sample.order_delivery)
      (hmac_header Sample.order_delivery) = Ok true)
    by (vm_compute; reflexivity).
  assert (Hparse :
    parse_json (Sample.parsing Sample.order) (text Sample.order_delivery)
    = Ok Sample.order)
    by (vm_compute; reflexivity).
  split.
  - destruct (begin_failure_aborts_transaction Sample.configured
                (Sample.parsing Sample.order)
                (Sample.answering Sample.begin_userErrors)
                (VNum 5380452647120) []
                {| http_status := 200; http_json := Some Sample.begin_userErrors |}
                Sample.begin_userErrors Hkey Hog) as [Hnull Hpost];
      [reflexivity | reflexivity | reflexivity | | ].
    + left. exists Sample.userError, []. reflexivity.
    + split; [exact Hnull | ].
      apply (Hpost Sample.order_delivery Sample.order Hverified Hparse);
        reflexivity.
  - destruct (begin_failure_aborts_transaction Sample.configured
                (Sample.parsing Sample.order)
                (Sample.answering Sample.begin_without_token)
                (VNum 5380452647120) []
                {| http_status := 200; http_json := Some Sample.begin_without_token |}
                Sample.begin_without_token Hkey Hog) as [Hnull Hpost];
      [reflexivity | reflexivity | reflexivity | | ].
    + right. reflexivity.
    + split; [exact Hnull | ].
      apply (Hpost Sample.order_delivery Sample.order Hverified Hparse);
        reflexivity.
Defined.






(** ** Failures of the mutation, seen from the handlers *)

(** The cart handler answers 200 "Hidden product added to cart" whenever
    addHiddenProductToCart returns null: its test of the result starts
    with [result &&]. *)
Lemma cart_null_result_is_200 :
  forall (env : process_env) (rt : runtime) (net : network)
         (webhook : NextRequest) (cart : value) (sent sent' : list request),
    verifyShopifyWebhook env (text webhook) (hmac_header webhook) = Ok true ->
    parse_json rt (text webhook) = Ok cart ->
    CartUpdate.hasTriggerProduct env cart = Ok true ->
    CartUpdate.hasHiddenProduct env cart = Ok false ->
    truthy (cart_identifier cart) = true ->
    CartUpdate.addHiddenProductToCart env net (cart_identifier cart) sent
    = (Ok VNull, sent') ->
    CartUpdate.POST env rt net webhook sent
    = (Ok {| status := 200; payload := SuccessBody "Hidden product added to cart" |},
       sent').
Proof.
  intros env rt net webhook cart sent sent'
         Hverified Hparse Htrigger Hhidden Htruthy Hnull.
  assert (Hcart : nullish cart = false).
  { unfold CartUpdate.hasTriggerProduct, get_opt in Htrigger.
    destruct (nullish cart); [discriminate Htrigger | reflexivity]. }
  assert (Hget : forall p, get cart p = Ok (member cart p)).
  { intros p. unfold get. rewrite Hcart. reflexivity. }
  unfold CartUpdate.POST. apply try_catch_ok.
  rewrite (bind_lift_ok _ _ _ _ Hverified). cbn [negb].
  rewrite (bind_lift_ok _ _ _ _ Hparse).
  rewrite (bind_lift_ok _ _ _ _ Htrigger).
  rewrite Hhidden. simpl rbind.
  rewrite (bind_lift_ok _ _ _ true eq_refl).
  rewrite (bind_lift_ok _ _ _ _ (Hget "id")).
  rewrite (bind_ok _ _ sent (cart_identifier cart) sent).
  - rewrite Htruthy. cbn [negb].
    rewrite (bind_ok _ _ _ _ _ Hnull). reflexivity.
  - unfold cart_identifier, js_or.
    destruct (truthy (member cart "id")).
    + reflexivity.
    + rewrite (Hget "token"). reflexivity.
Qed.

(** C2 (failing input).  The signed delivery of the sample cart (trigger
    T1 present, hidden variant H1 absent) to the configured cart route.
    Whether fetch rejects or the API answers 503, the one request is sent,
    addHiddenProductToCart returns null, and the handler answers 200
    "Hidden product added to cart"; with the storefront token empty no
    request is sent and the answer is the same 200.  The order route, in
    the same two transport failures, answers 500. *)
Theorem cart_failure_answered_with_200 :
  CartUpdate.POST Sample.configured (Sample.parsing Sample.cart)
    Sample.unreachable Sample.cart_delivery []
  = (Ok {| status := 200; payload := SuccessBody "Hidden product added to cart" |},
     [cart_request Sample.configured (VStr "c1")])
  /\
  CartUpdate.POST Sample.configured (Sample.parsing Sample.cart)
    Sample.unavailable Sample.cart_delivery []
  = (Ok {| status := 200; payload := SuccessBody "Hidden product added to cart" |},
     [cart_request Sample.configured (VStr "c1")])
  /\
  CartUpdate.POST Sample.no_tokens (Sample.parsing Sample.cart)
    Sample.unreachable Sample.cart_delivery []
  = (Ok {| status := 200; payload := SuccessBody "Hidden product added to cart" |},
     [])
  /\
  status_of (OrderUpdate.POST Sample.configured (Sample.parsing Sample.order)
               Sample.unreachable Sample.order_delivery []) = Some 500%Z
  /\
  status_of (OrderUpdate.POST Sample.configured (Sample.parsing Sample.order)
               Sample.unavailable Sample.order_delivery []) = Some 500%Z.
Proof.
  repeat split; vm_compute; reflexivity.
Qed.

(** ** Every handler answers, and with a known status *)

Ltac status_known := unfold valid_status; simpl; auto.

(** C10. Every invocation of either POST handler returns a response (no
    exception leaves the handler), and its status is 200, 400, 401 or 500.
    Stated for every environment, runtime, remote side, inbound request and
    history of requests already sent. *)
Theorem POST_always_responds :
  forall (env : process_env) (rt : runtime) (net : network)
         (webhook : NextRequest) (sent : list request),
    (exists response sent',
        CartUpdate.POST env rt net webhook sent = (Ok response, sent')
        /\ valid_status (status response))
    /\
    (exists response sent',
        OrderUpdate.POST env rt net webhook sent = (Ok response, sent')
        /\ valid_status (status response)).
Proof.
  intros env rt net webhook sent. split.
  - unfold CartUpdate.POST.
    apply try_catch_returns.
    + repeat yields_step; status_known.
    + intros e s. eexists. eexists. split; [reflexivity | status_known].
  - unfold OrderUpdate.POST.
    apply try_catch_returns.
    + repeat yields_step; status_known.
    + intros e s. eexists. eexists. split; [reflexivity | status_known].
Qed.

(** * Further properties

    Properties of the same routes beyond the ones above, read off the
    source. *)

(** ** The verifier, completely *)

(** X1. With the bypass off and a secret configured, the outcome of the
    verifier is decided by the header alone: false for a missing or empty
    header; for a header of 44 UTF-8 bytes, whether it equals the base64
    HMAC-SHA256 of the body; and a RangeError for every other length. *)
Theorem verifier_outcome :
  forall (env : process_env) (body : string) (hmacHeader : option string),
    BYPASS_WEBHOOK_VERIFICATION env = false ->
    SHOPIFY_WEBHOOK_SECRET env <> "" ->
    verifyShopifyWebhook env body hmacHeader
    = match hmacHeader with
      | None => Ok false
      | Some h =>
          if h =? "" then Ok false
          else if Nat.eqb (List.length (Crypto.Buffer_from h)) 44
               then Ok (h =? Crypto.createHmac_sha256_base64
                               (SHOPIFY_WEBHOOK_SECRET env) body)
               else Throw RangeError
      end.
Proof.
  intros env body [h | ] Hbypass Hsecret.
  - destruct (h =? "") eqn:Hh.
    + apply String.eqb_eq in Hh. subst h.
      apply verifier_without_header; auto.
    + apply String.eqb_neq in Hh.
      destruct (Nat.eqb (List.length (Crypto.Buffer_from h)) 44) eqn:Hlen.
      * apply Nat.eqb_eq in Hlen.
        destruct (h =? Crypto.createHmac_sha256_base64
                         (SHOPIFY_WEBHOOK_SECRET env) body) eqn:Heq.
        -- apply String.eqb_eq in Heq.
           apply (proj2 (verifier_accepts_exactly_the_digest
                           env body (Some h) Hbypass Hsecret)).
           f_equal. exact Heq.
        -- apply String.eqb_neq in Heq.
           apply verifier_rejects_other_header_of_digest_length; assumption.
      * apply Nat.eqb_neq in Hlen.
        apply verifier_throws_on_length_mismatch; auto.
        rewrite digest_byte_length. exact Hlen.
  - apply verifier_without_header; auto.
Qed.

(** The configured secret with the signed sample cart, with a header that
    is too short, and without a header. *)
Lemma verifier_outcome_witness :
  verifyShopifyWebhook Sample.configured (text Sample.cart_delivery)
    (hmac_header Sample.cart_delivery) = Ok true
  /\ verifyShopifyWebhook Sample.configured (text Sample.cart_delivery)
       (Some "abc") = Throw RangeError
  /\ verifyShopifyWebhook Sample.configured (text Sample.cart_delivery) None
     = Ok false.
Proof.
  assert (Hbypass : BYPASS_WEBHOOK_VERIFICATION Sample.configured = false)
    by reflexivity.
  assert (Hsecret : SHOPIFY_WEBHOOK_SECRET Sample.configured <> "")
    by (vm_compute; discriminate).
  split; [ | split].
  - eapply eq_trans.
    + apply (verifier_outcome Sample.configured (text Sample.cart_delivery)
               (hmac_header Sample.cart_delivery) Hbypass Hsecret).
    + vm_compute. reflexivity.
  - eapply eq_trans.
    + apply (verifier_outcome Sample.configured (text Sample.cart_delivery)
               (Some "abc") Hbypass Hsecret).
    + vm_compute. reflexivity.
  - apply (verifier_outcome Sample.configured (text Sample.cart_delivery)
             None Hbypass Hsecret).
Defined.

(** ** Authentication and the handlers *)

Lemma try_catch_after_lift {A B} (P : B -> Prop) (r : result A) (a : A)
      (k : A -> IO B) (handler : exn -> IO B) :
  r = Ok a ->
  yields P (k a) ->
  (forall e sent, exists b sent', handler e sent = (Ok b, sent') /\ P b) ->
  forall sent, exists b sent',
    try_catch (bind (lift r) k) handler sent = (Ok b, sent') /\ P b.
Proof.
  intros Hr Hk Hh sent. unfold try_catch.
  rewrite (bind_lift_ok _ _ _ _ Hr).
  specialize (Hk sent).
  destruct (k a sent) as [[b | e] sent']; simpl in Hk.
  - exists b, sent'. split; [reflexivity | exact Hk].
  - apply Hh.
Qed.

(** X2. With BYPASS_WEBHOOK_VERIFICATION set to 'true', the signature
    header plays no part: for the same body, either handler does exactly
    the same (same response, same requests) whatever the header, and never
    answers 401. *)
Theorem bypass_disables_authentication :
  forall (env : process_env) (rt : runtime) (net : network)
         (body : string) (h h' : option string) (sent : list request),
    BYPASS_WEBHOOK_VERIFICATION env = true ->
    CartUpdate.POST env rt net {| text := body; hmac_header := h |} sent
    = CartUpdate.POST env rt net {| text := body; hmac_header := h' |} sent
    /\ OrderUpdate.POST env rt net {| text := body; hmac_header := h |} sent
       = OrderUpdate.POST env rt net {| text := body; hmac_header := h' |} sent
    /\ status_of (CartUpdate.POST env rt net {| text := body; hmac_header := h |} sent)
       <> Some 401%Z
    /\ status_of (OrderUpdate.POST env rt net {| text := body; hmac_header := h |} sent)
       <> Some 401%Z.
Proof.
  intros env rt net body h h' sent Hbypass.
  pose proof (verifier_bypass_accepts_all env body h Hbypass) as Hh.
  pose proof (verifier_bypass_accepts_all env body h' Hbypass) as Hh'.
  split; [ | split; [ | split]].
  - unfold CartUpdate.POST, try_catch. cbn [text hmac_header].
    rewrite (bind_lift_ok _ _ _ _ Hh), (bind_lift_ok _ _ _ _ Hh'). reflexivity.
  - unfold OrderUpdate.POST, try_catch. cbn [text hmac_header].
    rewrite (bind_lift_ok _ _ _ _ Hh), (bind_lift_ok _ _ _ _ Hh'). reflexivity.
  - unfold CartUpdate.POST. cbn [text hmac_header].
    match goal with
    | |- status_of (try_catch (bind (lift ?r) ?k) ?hd sent) <> _ =>
        assert (Hrun : exists b sent',
                   try_catch (bind (lift r) k) hd sent = (Ok b, sent')
                   /\ status b <> 401%Z)
    end.
    { apply (try_catch_after_lift _ _ true); [exact Hh | | ].
      - cbn [negb]. repeat yields_step; simpl; discriminate.
      - intros e s. eexists. eexists.
        split; [reflexivity | simpl; discriminate]. }
    destruct Hrun as (b & sent' & Hrun & Hstatus).
    unfold status_of. rewrite Hrun. simpl. congruence.
  - unfold OrderUpdate.POST. cbn [text hmac_header].
    match goal with
    | |- status_of (try_catch (bind (lift ?r) ?k) ?hd sent) <> _ =>
        assert (Hrun : exists b sent',
                   try_catch (bind (lift r) k) hd sent = (Ok b, sent')
                   /\ status b <> 401%Z)
    end.
    { apply (try_catch_after_lift _ _ true); [exact Hh | | ].
      - cbn [negb]. repeat yields_step; simpl; discriminate.
      - intros e s. eexists. eexists.
        split; [reflexivity | simpl; discriminate]. }
    destruct Hrun as (b & sent' & Hrun & Hstatus).
    unfold status_of. rewrite Hrun. simpl. congruence.
Qed.

(** With the bypass on, the sample cart sent without a header and with a
    header that is no signature. *)
Lemma bypass_disables_authentication_witness :
  CartUpdate.POST Scenario.bypassing (Sample.parsing Sample.cart) Scenario.shop
    {| text := Sample.JSON_text Sample.cart; hmac_header := None |} []
  = CartUpdate.POST Scenario.bypassing (Sample.parsing Sample.cart) Scenario.shop
      {| text := Sample.JSON_text Sample.cart; hmac_header := Some "abc" |} []
  /\ status_of
       (OrderUpdate.POST Scenario.bypassing (Sample.parsing Sample.cart) Scenario.shop
          {| text := Sample.JSON_text Sample.cart; hmac_header := None |} [])
     <> Some 401%Z.
Proof.
  assert (Hbypass : BYPASS_WEBHOOK_VERIFICATION Scenario.bypassing = true)
    by reflexivity.
  destruct (bypass_disables_authentication Scenario.bypassing
              (Sample.parsing Sample.cart) Scenario.shop
              (Sample.JSON_text Sample.cart) None (Some "abc") [] Hbypass)
    as (Hcart & _ & _ & Horder).
  split; [exact Hcart | exact Horder].
Defined.

(** X3. Nothing is sent for a request that is not verified: whenever the
    verifier does not return true (it returns false, or it throws), either
    handler leaves the list of requests sent as it was. *)
Theorem no_request_without_verification :
  forall (env : process_env) (rt : runtime) (net : network)
         (webhook : NextRequest) (sent : list request),
    verifyShopifyWebhook env (text webhook) (hmac_header webhook) <> Ok true ->
    snd (CartUpdate.POST env rt net webhook sent) = sent
    /\ snd (OrderUpdate.POST env rt net webhook sent) = sent.
Proof.
  intros env rt net webhook sent Hverify.
  destruct (verifyShopifyWebhook env (text webhook) (hmac_header webhook))
    as [[ | ] | e] eqn:Hresult.
  - contradiction.
  - destruct (unverified_is_unauthorized env rt net webhook sent Hresult)
      as [-> ->]. split; reflexivity.
  - destruct (verifier_exception_is_500 env rt net webhook sent e Hresult)
      as [-> ->]. split; reflexivity.
Qed.

(** The sample cart with a signature that is too short, for which the
    verifier throws, and without a signature, for which it returns
    false. *)
Lemma no_request_without_verification_witness :
  snd (CartUpdate.POST Sample.configured (Sample.parsing Sample.cart) Scenario.shop
         Sample.cart_delivery_short []) = []
  /\ snd (OrderUpdate.POST Sample.configured (Sample.parsing Sample.cart)
            Scenario.shop
            {| text := Sample.JSON_text Sample.cart; hmac_header := None |} [])
     = [].
Proof.
  split.
  - apply (no_request_without_verification Sample.configured
             (Sample.parsing Sample.cart) Scenario.shop
             Sample.cart_delivery_short []).
    vm_compute. discriminate.
  - apply (no_request_without_verification Sample.configured
             (Sample.parsing Sample.cart) Scenario.shop
             {| text := Sample.JSON_text Sample.cart; hmac_header := None |} []).
    vm_compute. discriminate.
Defined.

(** ** The predicates over line items *)


Lemma get_of_item (item : value) (p : string) :
  nullish item = false -> get item p = Ok (member item p).
Proof. intros H. unfold get. rewrite H. reflexivity. Qed.







(** ** The trigger list *)

Lemma split_comma_joins_back (s : string) :
  String.concat "," (split_comma s) = s.
Proof.
  induction s as [ | c s IH]; [reflexivity | ].
  cbn [split_comma].
  pose proof (split_comma_nonempty s) as Hne.
  destruct (Ascii.eqb c ",") eqn:Hc.
  - apply Ascii.eqb_eq in Hc. subst c.
    destruct (split_comma s) as [ | p ps]; [contradiction | ].
    change (String.concat "," ("" :: p :: ps))
      with (String "," (String.concat "," (p :: ps))).
    rewrite IH. reflexivity.
  - destruct (split_comma s) as [ | p ps]; [contradiction | ].
    destruct ps as [ | q ps].
    + simpl in IH. subst p. reflexivity.
    + change (String.concat "," (String c p :: q :: ps))
        with (String c (String.concat "," (p :: q :: ps))).
      rewrite IH. reflexivity.
Qed.

Lemma split_comma_pieces_comma_free (s : string) :
  Forall (fun piece => comma_free piece = true) (split_comma s).
Proof.
  induction s as [ | c s IH]; cbn [split_comma].
  - constructor; [reflexivity | constructor].
  - destruct (Ascii.eqb c ",") eqn:Hc.
    + constructor; [reflexivity | exact IH].
    + destruct (split_comma s) as [ | p ps].
      * constructor; [ | constructor].
        unfold comma_free. simpl. rewrite Hc. reflexivity.
      * inversion IH as [ | ? ? Hp Hps]. constructor; [ | exact Hps].
        unfold comma_free in *. simpl. rewrite Hc. exact Hp.
Qed.

Lemma split_comma_of_piece (x : string) :
  comma_free x = true -> split_comma x = [x].
Proof.
  induction x as [ | c x IH]; [reflexivity | ].
  unfold comma_free. cbn [list_ascii_of_string forallb].
  intros H. apply andb_true_iff in H as [Hc Hx].
  apply negb_true_iff in Hc.
  cbn [split_comma]. rewrite Hc, (IH Hx). reflexivity.
Qed.

Lemma split_comma_after_piece (x t : string) :
  comma_free x = true ->
  split_comma (x ++ String "," t) = x :: split_comma t.
Proof.
  induction x as [ | c x IH].
  - intros _. reflexivity.
  - unfold comma_free. cbn [list_ascii_of_string forallb].
    intros H. apply andb_true_iff in H as [Hc Hx].
    apply negb_true_iff in Hc.
    change (String c x ++ String "," t) with (String c (x ++ String "," t)).
    cbn [split_comma]. rewrite Hc, (IH Hx). reflexivity.
Qed.

Lemma split_comma_of_join (l : list string) :
  l <> [] ->
  Forall (fun piece => comma_free piece = true) l ->
  split_comma (String.concat "," l) = l.
Proof.
  intros Hne Hl. induction Hl as [ | x l Hx Hl IH]; [contradiction | ].
  destruct l as [ | y l].
  - apply split_comma_of_piece. exact Hx.
  - change (String.concat "," (x :: y :: l))
      with (x ++ String "," (String.concat "," (y :: l))).
    rewrite (split_comma_after_piece x _ Hx), IH; [reflexivity | discriminate].
Qed.

(** X7. The trigger list is the comma-separated reading of
    TRIGGER_VARIANT_IDS and nothing else is done to it (no trimming, no
    dropping of empty entries): it is never empty, no entry contains a
    comma, joining it with commas gives the variable's text back, and a
    variable set to comma-free identifiers joined by commas gives exactly
    those identifiers, in order.  The cart route and the order route read
    the same list. *)
Theorem trigger_list_round_trip :
  forall (env : process_env),
    CartUpdate.TRIGGER_VARIANT_IDS env <> []
    /\ Forall (fun id => comma_free id = true) (CartUpdate.TRIGGER_VARIANT_IDS env)
    /\ String.concat "," (CartUpdate.TRIGGER_VARIANT_IDS env)
       = or_empty (env_TRIGGER_VARIANT_IDS env)
    /\ (forall ids,
          ids <> [] ->
          Forall (fun id => comma_free id = true) ids ->
          env_TRIGGER_VARIANT_IDS env = Some (String.concat "," ids) ->
          CartUpdate.TRIGGER_VARIANT_IDS env = ids)
    /\ OrderUpdate.TRIGGER_VARIANT_IDS env = CartUpdate.TRIGGER_VARIANT_IDS env.
Proof.
  intros env.
  unfold CartUpdate.TRIGGER_VARIANT_IDS, OrderUpdate.TRIGGER_VARIANT_IDS.
  split; [apply split_comma_nonempty | ].
  split; [apply split_comma_pieces_comma_free | ].
  split; [apply split_comma_joins_back | ].
  split; [ | reflexivity].
  intros ids Hne Hids ->. cbn [or_empty].
  apply split_comma_of_join; assumption.
Qed.

(** TRIGGER_VARIANT_IDS set to "T1,T2". *)
Lemma trigger_list_round_trip_witness :
  CartUpdate.TRIGGER_VARIANT_IDS Scenario.two_triggers = ["T1"; "T2"]
  /\ OrderUpdate.TRIGGER_VARIANT_IDS Scenario.two_triggers = ["T1"; "T2"].
Proof.
  destruct (trigger_list_round_trip Scenario.two_triggers)
    as (_ & _ & _ & Hids & Hsame).
  assert (Hcart : CartUpdate.TRIGGER_VARIANT_IDS Scenario.two_triggers = ["T1"; "T2"]).
  { apply Hids.
    - discriminate.
    - repeat constructor.
    - reflexivity. }
  split; [exact Hcart | ].
  rewrite Hsame. exact Hcart.
Defined.

(** ** The cart handler, case by case *)

Lemma cart_trigger_needs_object (env : process_env) (cart : value) :
  CartUpdate.hasTriggerProduct env cart = Ok true -> nullish cart = false.
Proof.
  unfold CartUpdate.hasTriggerProduct, get_opt.
  destruct (nullish cart); [discriminate | reflexivity].
Qed.

(** The cart handler on a verified request whose text parses, written as
    one case analysis. *)
Lemma cart_POST_cases :
  forall (env : process_env) (rt : runtime) (net : network)
         (webhook : NextRequest) (cart : value) (sent : list request),
    verifyShopifyWebhook env (text webhook) (hmac_header webhook) = Ok true ->
    parse_json rt (text webhook) = Ok cart ->
    CartUpdate.POST env rt net webhook sent
    = match CartUpdate.hasTriggerProduct env cart with
      | Throw e => (Ok (processing_error e), sent)
      | Ok false => (Ok acknowledged, sent)
      | Ok true =>
          match CartUpdate.hasHiddenProduct env cart with
          | Throw e => (Ok (processing_error e), sent)
          | Ok true => (Ok acknowledged, sent)
          | Ok false =>
              if truthy (cart_identifier cart)
              then
                match CartUpdate.addHiddenProductToCart env net
                        (cart_identifier cart) sent with
                | (Ok result, sent') => (Ok (cart_answer rt result), sent')
                | (Throw e, sent') => (Ok (processing_error e), sent')
                end
              else (Ok {| status := 400;
                          payload := ErrorBody "Missing cart ID" None |}, sent)
          end
      end.
Proof.
  intros env rt net webhook cart sent Hverified Hparse.
  unfold CartUpdate.POST, try_catch.
  rewrite (bind_lift_ok _ _ _ _ Hverified). cbn [negb].
  rewrite (bind_lift_ok _ _ _ _ Hparse).
  destruct (CartUpdate.hasTriggerProduct env cart) as [[ | ] | e] eqn:Htrigger;
    [ | reflexivity | reflexivity].
  rewrite (bind_lift_ok _ _ _ true eq_refl).
  destruct (CartUpdate.hasHiddenProduct env cart) as [[ | ] | e] eqn:Hhidden;
    [reflexivity | | reflexivity].
  cbn [rbind negb].
  rewrite (bind_lift_ok _ _ _ true eq_refl).
  pose proof (cart_trigger_needs_object env cart Htrigger) as Hcart.
  rewrite (bind_lift_ok _ _ _ _ (get_of_item cart "id" Hcart)).
  rewrite (bind_ok _ _ sent (cart_identifier cart) sent).
  - destruct (truthy (cart_identifier cart)); cbn [negb]; [ | reflexivity].
    unfold bind, cart_answer.
    destruct (CartUpdate.addHiddenProductToCart env net (cart_identifier cart) sent)
      as [[result | e] sent'].
    + destruct (CartUpdate.has_userErrors rt result); reflexivity.
    + reflexivity.
  - unfold cart_identifier, js_or.
    destruct (truthy (member cart "id")); [reflexivity | ].
    rewrite (get_of_item cart "token" Hcart). reflexivity.
Qed.

Lemma addHiddenProductToCart_run :
  forall (env : process_env) (net : network) (cartId : value)
         (sent : list request),
    CartUpdate.SHOPIFY_STOREFRONT_ACCESS_TOKEN env <> "" ->
    CartUpdate.HIDDEN_VARIANT_ID env <> "" ->
    CartUpdate.addHiddenProductToCart env net cartId sent
    = (match net (sent ++ [cart_request env cartId])%list with
       | Rejected => Ok VNull
       | Resolved r =>
           if ok r
           then match http_json r with
                | Some v => Ok v
                | None => Ok VNull
                end
           else Ok VNull
       end,
       (sent ++ [cart_request env cartId])%list).
Proof.
  intros env net cartId sent Htoken Hhidden.
  unfold CartUpdate.addHiddenProductToCart.
  rewrite (eqb_nonempty _ Htoken), (eqb_nonempty _ Hhidden).
  change (false || false) with false. cbv iota.
  fold (cart_request env cartId).
  unfold try_catch, bind, fetch.
  destruct (net (sent ++ [cart_request env cartId])%list) as [ | r];
    [reflexivity | ].
  destruct (ok r); cbn [negb]; [ | reflexivity].
  unfold lift, response_json. destruct (http_json r); reflexivity.
Qed.

(** X8. A verified cart webhook whose trigger condition is not met (no
    trigger product, or the hidden product already there) is acknowledged
    with 200 "Webhook received" and nothing is sent; this includes every
    JSON payload without an [items] array. *)
Theorem cart_POST_acknowledges :
  forall (env : process_env) (rt : runtime) (net : network)
         (webhook : NextRequest) (cart : value) (sent : list request),
    verifyShopifyWebhook env (text webhook) (hmac_header webhook) = Ok true ->
    parse_json rt (text webhook) = Ok cart ->
    (forall items, get_opt cart "items" <> VArr items)
    \/ CartUpdate.hasTriggerProduct env cart = Ok false
    \/ (CartUpdate.hasTriggerProduct env cart = Ok true
        /\ CartUpdate.hasHiddenProduct env cart = Ok true) ->
    CartUpdate.POST env rt net webhook sent = (Ok acknowledged, sent).
Proof.
  intros env rt net webhook cart sent Hverified Hparse Hcase.
  rewrite (cart_POST_cases env rt net webhook cart sent Hverified Hparse).
  destruct Hcase as [Hnone | [Hfalse | [Htrue Hhidden]]].
  - assert (Hfalse : CartUpdate.hasTriggerProduct env cart = Ok false).
    { unfold CartUpdate.hasTriggerProduct.
      destruct (get_opt cart "items") as [ | | b | n | s | items | fields];
        try reflexivity.
      - destruct (truthy (VBool b)); reflexivity.
      - destruct (truthy (VNum n)); reflexivity.
      - destruct (truthy (VStr s)); reflexivity.
      - exfalso. apply (Hnone items). reflexivity. }
    rewrite Hfalse. reflexivity.
  - rewrite Hfalse. reflexivity.
  - rewrite Htrue, Hhidden. reflexivity.
Qed.

(** The signed deliveries of a cart without a trigger product and of a
    cart that already holds the hidden product. *)
Lemma cart_POST_acknowledges_witness :
  CartUpdate.POST Sample.configured (Sample.parsing Scenario.cart_plain)
    Scenario.shop (Scenario.signed Scenario.cart_plain) []
  = (Ok acknowledged, [])
  /\ CartUpdate.POST Sample.configured (Sample.parsing Scenario.cart_complete)
       Scenario.shop (Scenario.signed Scenario.cart_complete) []
     = (Ok acknowledged, []).
Proof.
  split.
  - apply (cart_POST_acknowledges Sample.configured
             (Sample.parsing Scenario.cart_plain) Scenario.shop
             (Scenario.signed Scenario.cart_plain) Scenario.cart_plain []).
    + vm_compute. reflexivity.
    + vm_compute. reflexivity.
    + right. left. vm_compute. reflexivity.
  - apply (cart_POST_acknowledges Sample.configured
             (Sample.parsing Scenario.cart_complete) Scenario.shop
             (Scenario.signed Scenario.cart_complete) Scenario.cart_complete []).
    + vm_compute. reflexivity.
    + vm_compute. reflexivity.
    + right. right. split; vm_compute; reflexivity.
Defined.

(** X9. A verified cart webhook that meets the trigger condition but
    carries neither a truthy [id] nor a truthy [token] is answered 400
    "Missing cart ID", and nothing is sent. *)
Theorem cart_POST_missing_cart_id :
  forall (env : process_env) (rt : runtime) (net : network)
         (webhook : NextRequest) (cart : value) (sent : list request),
    verifyShopifyWebhook env (text webhook) (hmac_header webhook) = Ok true ->
    parse_json rt (text webhook) = Ok cart ->
    CartUpdate.hasTriggerProduct env cart = Ok true ->
    CartUpdate.hasHiddenProduct env cart = Ok false ->
    truthy (member cart "id") = false ->
    truthy (member cart "token") = false ->
    CartUpdate.POST env rt net webhook sent
    = (Ok {| status := 400; payload := ErrorBody "Missing cart ID" None |}, sent).
Proof.
  intros env rt net webhook cart sent Hverified Hparse Htrigger Hhidden Hid Htoken.
  rewrite (cart_POST_cases env rt net webhook cart sent Hverified Hparse).
  rewrite Htrigger, Hhidden.
  unfold cart_identifier, js_or. rewrite Hid, Htoken. reflexivity.
Qed.

(** The signed delivery of a cart with a trigger product and no
    identifier. *)
Lemma cart_POST_missing_cart_id_witness :
  CartUpdate.POST Sample.configured (Sample.parsing Scenario.cart_anonymous)
    Scenario.shop (Scenario.signed Scenario.cart_anonymous) []
  = (Ok {| status := 400; payload := ErrorBody "Missing cart ID" None |}, []).
Proof.
  apply (cart_POST_missing_cart_id Sample.configured
           (Sample.parsing Scenario.cart_anonymous) Scenario.shop
           (Scenario.signed Scenario.cart_anonymous) Scenario.cart_anonymous []).
  - vm_compute. reflexivity.
  - vm_compute. reflexivity.
  - vm_compute. reflexivity.
  - vm_compute. reflexivity.
  - reflexivity.
  - reflexivity.
Defined.



(** X11. The cart handler calls the API exactly when it is due: something
    is sent if and only if the request is verified, its text parses, the
    cart has a trigger product and not the hidden product, it carries a
    cart identifier, and the storefront token and the hidden variant are
    configured; and then exactly one request is sent. *)
Theorem cart_POST_sends_iff_due :
  forall (env : process_env) (rt : runtime) (net : network)
         (webhook : NextRequest) (sent : list request),
    (snd (CartUpdate.POST env rt net webhook sent) <> sent
     <->
     exists cart,
       verifyShopifyWebhook env (text webhook) (hmac_header webhook) = Ok true
       /\ parse_json rt (text webhook) = Ok cart
       /\ CartUpdate.hasTriggerProduct env cart = Ok true
       /\ CartUpdate.hasHiddenProduct env cart = Ok false
       /\ truthy (cart_identifier cart) = true
       /\ CartUpdate.SHOPIFY_STOREFRONT_ACCESS_TOKEN env <> ""
       /\ CartUpdate.HIDDEN_VARIANT_ID env <> "")
    /\
    (snd (CartUpdate.POST env rt net webhook sent) = sent
     \/ exists cartId,
          snd (CartUpdate.POST env rt net webhook sent)
          = (sent ++ [cart_request env cartId])%list).
Proof.
  intros env rt net webhook sent.
  assert (Hgrow : forall x : request, (sent ++ [x])%list <> sent).
  { intros x H. apply (f_equal (@List.length request)) in H.
    rewrite length_app in H. simpl in H. lia. }
  destruct (verifyShopifyWebhook env (text webhook) (hmac_header webhook))
    as [[ | ] | e] eqn:Hverified.
  2: { destruct (unverified_is_unauthorized env rt net webhook sent Hverified)
         as [-> _]. simpl. split; [ | left; reflexivity].
       split; [contradiction | intros (c & H & _); discriminate H]. }
  2: { destruct (verifier_exception_is_500 env rt net webhook sent e Hverified)
         as [-> _]. simpl. split; [ | left; reflexivity].
       split; [contradiction | intros (c & H & _); discriminate H]. }
  destruct (parse_json rt (text webhook)) as [cart | e] eqn:Hparse.
  2: { unfold CartUpdate.POST, try_catch.
       rewrite (bind_lift_ok _ _ _ _ Hverified). cbn [negb].
       rewrite (bind_lift_throw _ _ _ _ Hparse). simpl.
       split; [ | left; reflexivity].
       split; [contradiction | intros (c & _ & H & _); discriminate H]. }
  rewrite (cart_POST_cases env rt net webhook cart sent Hverified Hparse).
  destruct (CartUpdate.hasTriggerProduct env cart) as [[ | ] | e] eqn:Htrigger.
  2, 3: simpl; (split; [ | left; reflexivity]);
        (split; [contradiction | ]);
        intros (c & _ & Hc & H & _); injection Hc as <-;
        rewrite Htrigger in H; discriminate H.
  destruct (CartUpdate.hasHiddenProduct env cart) as [[ | ] | e] eqn:Hhidden.
  1, 3: simpl; (split; [ | left; reflexivity]);
        (split; [contradiction | ]);
        intros (c & _ & Hc & _ & H & _); injection Hc as <-;
        rewrite Hhidden in H; discriminate H.
  destruct (truthy (cart_identifier cart)) eqn:Hid.
  2: { simpl. split; [ | left; reflexivity].
       split; [contradiction | ].
       intros (c & _ & Hc & _ & _ & H & _). injection Hc as <-.
       rewrite Hid in H. discriminate H. }
  destruct (string_dec (CartUpdate.SHOPIFY_STOREFRONT_ACCESS_TOKEN env) "")
    as [Htoken | Htoken].
  { unfold CartUpdate.addHiddenProductToCart. rewrite Htoken. simpl.
    split; [ | left; reflexivity].
    split; [contradiction | ].
    intros (c & _ & _ & _ & _ & _ & H & _). contradiction. }
  destruct (string_dec (CartUpdate.HIDDEN_VARIANT_ID env) "")
    as [Hvariant | Hvariant].
  { unfold CartUpdate.addHiddenProductToCart. rewrite Hvariant, orb_true_r. simpl.
    split; [ | left; reflexivity].
    split; [contradiction | ].
    intros (c & _ & _ & _ & _ & _ & _ & H). contradiction. }
  rewrite (addHiddenProductToCart_run env net _ sent Htoken Hvariant).
  assert (Hsent :
    snd (let (r, sent') :=
           (match net (sent ++ [cart_request env (cart_identifier cart)])%list with
            | Rejected => Ok VNull
            | Resolved r =>
                if ok r
                then match http_json r with
                     | Some v => Ok v
                     | None => Ok VNull
                     end
                else Ok VNull
            end,
            (sent ++ [cart_request env (cart_identifier cart)])%list)
         in match r with
            | Ok result => (Ok (cart_answer rt result), sent')
            | Throw e => (Ok (processing_error e), sent')
            end)
    = (sent ++ [cart_request env (cart_identifier cart)])%list).
  { destruct (net _) as [ | r]; [reflexivity | ].
    destruct (ok r); [ | reflexivity].
    destruct (http_json r); reflexivity. }
  rewrite Hsent. split.
  - split; [ | intros _; apply Hgrow].
    intros _. exists cart. repeat split; assumption.
  - right. exists (cart_identifier cart). reflexivity.
Qed.

(** ** The order handler, case by case *)

Lemma forEach_visits (cb : value -> result unit) (xs : list value) :
  OrderUpdate.forEach cb xs = Ok tt -> Forall (fun x => cb x = Ok tt) xs.
Proof.
  induction xs as [ | x xs IH]; simpl; intros H; [constructor | ].
  destruct (cb x) as [[] | e] eqn:Hx; [ | discriminate H].
  constructor; [exact Hx | exact (IH H)].
Qed.

(** What the logging at the head of the order handler has read without
    an exception: the order is an object, and its [line_items] are falsy
    or an array without null entries. *)
Lemma log_order_passes (order : value) :
  OrderUpdate.log_order order = Ok tt ->
  nullish order = false
  /\ (truthy (member order "line_items") = false
      \/ (isArray (member order "line_items") = true
          /\ Forall (fun item => nullish item = false)
                    (elements (member order "line_items")))).
Proof.
  unfold OrderUpdate.log_order, get.
  destruct (nullish order); [discriminate | ]. cbn [rbind].
  intros H. split; [reflexivity | ].
  destruct (truthy (member order "line_items")); [right | left; reflexivity].
  destruct (isArray (member order "line_items")); [ | discriminate H].
  split; [reflexivity | ].
  apply forEach_visits in H.
  eapply Forall_impl; [ | exact H].
  intros item Hitem. cbv beta in Hitem.
  destruct (nullish item); [discriminate Hitem | reflexivity].
Qed.

Lemma some_returns (cb : value -> result bool) (xs : list value) :
  Forall (fun x => exists b, cb x = Ok b) xs -> exists b, some cb xs = Ok b.
Proof.
  induction 1 as [ | x xs [b Hx] _ IH]; simpl; [exists false; reflexivity | ].
  rewrite Hx. destruct b; [exists true; reflexivity | exact IH].
Qed.

(** An order that passed the logging makes neither predicate throw. *)
Lemma logged_order_predicates_return (env : process_env) (order : value) :
  OrderUpdate.log_order order = Ok tt ->
  (exists trigger, OrderUpdate.hasTriggerProduct env order = Ok trigger)
  /\ (exists og, OrderUpdate.hasOGPack env order = Ok og).
Proof.
  intros Hlog. apply log_order_passes in Hlog as [Horder Hitems].
  unfold OrderUpdate.hasTriggerProduct, OrderUpdate.hasOGPack, get.
  rewrite Horder. cbn [rbind].
  destruct Hitems as [Hfalsy | [Harray Hitems]].
  - rewrite Hfalsy. cbn [negb orb]. split; eexists; reflexivity.
  - rewrite Harray. cbn [negb]. rewrite orb_false_r. split.
    + destruct (negb _ || _); [eexists; reflexivity | ].
      apply some_returns. eapply Forall_impl; [ | exact Hitems].
      intros item Hitem. cbv beta in Hitem. rewrite Hitem. cbn [rbind].
      eexists. reflexivity.
    + destruct (negb _ || _); [eexists; reflexivity | ].
      apply some_returns. eapply Forall_impl; [ | exact Hitems].
      intros item Hitem. cbv beta in Hitem.
      unfold OrderUpdate.isOGPack, get. rewrite Hitem. cbn [rbind].
      destruct (_ && _); eexists; reflexivity.
Qed.

(** The order handler on a verified request whose text parses to an order
    that passes the logging, written as one case analysis. *)
Lemma order_POST_cases :
  forall (env : process_env) (rt : runtime) (net : network)
         (webhook : NextRequest) (order : value) (sent : list request)
         (trigger og : bool),
    verifyShopifyWebhook env (text webhook) (hmac_header webhook) = Ok true ->
    parse_json rt (text webhook) = Ok order ->
    OrderUpdate.log_order order = Ok tt ->
    OrderUpdate.hasTriggerProduct env order = Ok trigger ->
    OrderUpdate.hasOGPack env order = Ok og ->
    OrderUpdate.POST env rt net webhook sent
    = if trigger && negb og
      then
        if truthy (order_identifier order)
        then
          match OrderUpdate.addFreeItemToOrder env rt net
                  (order_identifier order) sent with
          | (Ok result, sent') => (Ok (order_answer result), sent')
          | (Throw e, sent') => (Ok (processing_error e), sent')
          end
        else (Ok {| status := 400;
                    payload := ErrorBody "Missing order ID" None |}, sent)
      else (Ok acknowledged, sent).
Proof.
  intros env rt net webhook order sent trigger og
         Hverified Hparse Hlog Htrigger Hpack.
  assert (Horder : nullish order = false)
    by (apply (log_order_passes order Hlog)).
  unfold OrderUpdate.POST, try_catch.
  rewrite (bind_lift_ok _ _ _ _ Hverified). cbn [negb].
  rewrite (bind_lift_ok _ _ _ _ Hparse).
  rewrite (bind_lift_ok _ _ _ _ Hlog).
  rewrite (bind_lift_ok _ _ _ _ Htrigger).
  rewrite Hpack.
  destruct trigger, og; cbn [rbind negb andb].
  - rewrite (bind_lift_ok _ _ _ false eq_refl).
    rewrite (bind_lift_ok _ _ _ _ Htrigger).
    rewrite (bind_lift_ok _ _ _ true eq_refl). reflexivity.
  - rewrite (bind_lift_ok _ _ _ true eq_refl).
    rewrite (bind_lift_ok _ _ _ _ (get_of_item order "id" Horder)).
    rewrite (bind_ok _ _ sent (order_identifier order) sent).
    + destruct (truthy (order_identifier order)); cbn [negb]; [ | reflexivity].
      unfold bind, order_answer.
      destruct (OrderUpdate.addFreeItemToOrder env rt net
                  (order_identifier order) sent) as [[result | e] sent'].
      * destruct (negb (truthy result) || truthy (member result "errors"));
          reflexivity.
      * reflexivity.
    + unfold order_identifier, js_or.
      destruct (truthy (member order "id")); [reflexivity | ].
      rewrite (get_of_item order "admin_graphql_api_id" Horder). reflexivity.
  - unfold bind at 1. unfold ret at 1. cbv iota.
    rewrite (bind_lift_ok _ _ _ _ Htrigger).
    rewrite (bind_lift_ok _ _ _ true eq_refl). reflexivity.
  - unfold bind at 1. unfold ret at 1. cbv iota.
    rewrite (bind_lift_ok _ _ _ _ Htrigger).
    rewrite (bind_lift_ok _ _ _ false eq_refl). reflexivity.
Qed.

(** X12. A verified order webhook whose order has no trigger product, or
    already contains the free item, is acknowledged with 200 "Webhook
    received" and nothing is sent. *)
Theorem order_POST_acknowledges :
  forall (env : process_env) (rt : runtime) (net : network)
         (webhook : NextRequest) (order : value) (sent : list request),
    verifyShopifyWebhook env (text webhook) (hmac_header webhook) = Ok true ->
    parse_json rt (text webhook) = Ok order ->
    OrderUpdate.log_order order = Ok tt ->
    OrderUpdate.hasTriggerProduct env order = Ok false
    \/ OrderUpdate.hasOGPack env order = Ok true ->
    OrderUpdate.POST env rt net webhook sent = (Ok acknowledged, sent).
Proof.
  intros env rt net webhook order sent Hverified Hparse Hlog Hcase.
  destruct (logged_order_predicates_return env order Hlog)
    as [[trigger Htrigger] [og Hpack]].
  rewrite (order_POST_cases env rt net webhook order sent trigger og
             Hverified Hparse Hlog Htrigger Hpack).
  destruct Hcase as [Hfalse | Htrue].
  - rewrite Htrigger in Hfalse. injection Hfalse as ->. reflexivity.
  - rewrite Hpack in Htrue. injection Htrue as ->.
    rewrite andb_false_r. reflexivity.
Qed.

(** The signed deliveries of an order without a trigger product and of an
    order that already holds the free item. *)
Lemma order_POST_acknowledges_witness :
  OrderUpdate.POST Sample.configured (Sample.parsing Scenario.order_plain)
    Scenario.shop (Scenario.signed Scenario.order_plain) []
  = (Ok acknowledged, [])
  /\ OrderUpdate.POST Sample.configured (Sample.parsing Scenario.order_complete)
       Scenario.shop (Scenario.signed Scenario.order_complete) []
     = (Ok acknowledged, []).
Proof.
  split.
  - apply (order_POST_acknowledges Sample.configured
             (Sample.parsing Scenario.order_plain) Scenario.shop
             (Scenario.signed Scenario.order_plain) Scenario.order_plain []).
    + vm_compute. reflexivity.
    + vm_compute. reflexivity.
    + reflexivity.
    + left. vm_compute. reflexivity.
  - apply (order_POST_acknowledges Sample.configured
             (Sample.parsing Scenario.order_complete) Scenario.shop
             (Scenario.signed Scenario.order_complete) Scenario.order_complete []).
    + vm_compute. reflexivity.
    + vm_compute. reflexivity.
    + reflexivity.
    + right. vm_compute. reflexivity.
Defined.

(** X13. A verified order webhook that meets the trigger condition but
    carries neither a truthy [id] nor a truthy [admin_graphql_api_id] is
    answered 400 "Missing order ID", and nothing is sent. *)
Theorem order_POST_missing_order_id :
  forall (env : process_env) (rt : runtime) (net : network)
         (webhook : NextRequest) (order : value) (sent : list request),
    verifyShopifyWebhook env (text webhook) (hmac_header webhook) = Ok true ->
    parse_json rt (text webhook) = Ok order ->
    OrderUpdate.log_order order = Ok tt ->
    OrderUpdate.hasTriggerProduct env order = Ok true ->
    OrderUpdate.hasOGPack env order = Ok false ->
    truthy (member order "id") = false ->
    truthy (member order "admin_graphql_api_id") = false ->
    OrderUpdate.POST env rt net webhook sent
    = (Ok {| status := 400; payload := ErrorBody "Missing order ID" None |}, sent).
Proof.
  intros env rt net webhook order sent
         Hverified Hparse Hlog Htrigger Hpack Hid Hadmin.
  rewrite (order_POST_cases env rt net webhook order sent true false
             Hverified Hparse Hlog Htrigger Hpack).
  unfold order_identifier, js_or. rewrite Hid, Hadmin. reflexivity.
Qed.

(** The signed delivery of an order with a trigger product and no
    identifier. *)
Lemma order_POST_missing_order_id_witness :
  OrderUpdate.POST Sample.configured (Sample.parsing Scenario.order_anonymous)
    Scenario.shop (Scenario.signed Scenario.order_anonymous) []
  = (Ok {| status := 400; payload := ErrorBody "Missing order ID" None |}, []).
Proof.
  apply (order_POST_missing_order_id Sample.configured
           (Sample.parsing Scenario.order_anonymous) Scenario.shop
           (Scenario.signed Scenario.order_anonymous) Scenario.order_anonymous []).
  - vm_compute. reflexivity.
  - vm_compute. reflexivity.
  - reflexivity.
  - vm_compute. reflexivity.
  - vm_compute. reflexivity.
  - reflexivity.
  - reflexivity.
Defined.





(** ** The order edit, forwards *)








(** ** Identifiers in global form *)




(** ** Payloads that cannot be processed *)

(** X18. A verified request whose text JSON.parse refuses is answered 500
    "Error processing webhook" by both handlers, with the SyntaxError as
    details, and nothing is sent. *)
Theorem unparsable_body_is_500 :
  forall (env : process_env) (rt : runtime) (net : network)
         (webhook : NextRequest) (sent : list request),
    verifyShopifyWebhook env (text webhook) (hmac_header webhook) = Ok true ->
    JSON_parse rt (text webhook) = None ->
    CartUpdate.POST env rt net webhook sent
    = (Ok (processing_error SyntaxError), sent)
    /\ OrderUpdate.POST env rt net webhook sent
       = (Ok (processing_error SyntaxError), sent).
Proof.
  intros env rt net webhook sent Hverified Hparse.
  assert (Hthrow : parse_json rt (text webhook) = Throw SyntaxError).
  { unfold parse_json. rewrite Hparse. reflexivity. }
  split.
  - unfold CartUpdate.POST, try_catch.
    rewrite (bind_lift_ok _ _ _ _ Hverified). cbn [negb].
    rewrite (bind_lift_throw _ _ _ _ Hthrow). reflexivity.
  - unfold OrderUpdate.POST, try_catch.
    rewrite (bind_lift_ok _ _ _ _ Hverified). cbn [negb].
    rewrite (bind_lift_throw _ _ _ _ Hthrow). reflexivity.
Qed.

(** The signed sample order with a JSON.parse that refuses its text. *)
Lemma unparsable_body_witness :
  CartUpdate.POST Sample.configured (Sample.parsing Sample.cart) Scenario.shop
    Sample.order_delivery []
  = (Ok (processing_error SyntaxError), [])
  /\ OrderUpdate.POST Sample.configured (Sample.parsing Sample.cart) Scenario.shop
       Sample.order_delivery []
     = (Ok (processing_error SyntaxError), []).
Proof.
  apply (unparsable_body_is_500 Sample.configured (Sample.parsing Sample.cart)
           Scenario.shop Sample.order_delivery []).
  - vm_compute. reflexivity.
  - vm_compute. reflexivity.
Defined.

Lemma forEach_stops (cb : value -> result unit) (xs : list value) (item : value) :
  (forall x e, cb x = Throw e -> e = TypeError) ->
  In item xs ->
  cb item = Throw TypeError ->
  OrderUpdate.forEach cb xs = Throw TypeError.
Proof.
  intros Hcb. induction xs as [ | x xs IH]; simpl; [contradiction | ].
  intros [-> | Hin] Hitem.
  - rewrite Hitem. reflexivity.
  - destruct (cb x) as [[] | e] eqn:Hx.
    + exact (IH Hin Hitem).
    + rewrite (Hcb x e Hx). reflexivity.
Qed.

(** X19. A verified order webhook whose JSON is not an order is answered
    500 "Error processing webhook" with a TypeError, and nothing is sent:
    this happens when the payload is null, when [line_items] is truthy
    without being an array, and when [line_items] has a null entry. *)
Theorem malformed_order_is_500 :
  forall (env : process_env) (rt : runtime) (net : network)
         (webhook : NextRequest) (order : value) (sent : list request),
    verifyShopifyWebhook env (text webhook) (hmac_header webhook) = Ok true ->
    parse_json rt (text webhook) = Ok order ->
    order = VNull
    \/ (nullish order = false
        /\ truthy (member order "line_items") = true
        /\ isArray (member order "line_items") = false)
    \/ (nullish order = false
        /\ In VNull (elements (member order "line_items"))) ->
    OrderUpdate.POST env rt net webhook sent
    = (Ok (processing_error TypeError), sent).
Proof.
  intros env rt net webhook order sent Hverified Hparse Hcase.
  assert (Hlog : OrderUpdate.log_order order = Throw TypeError).
  { destruct Hcase as [-> | [(Horder & Htruthy & Harray) | (Horder & Hin)]].
    - reflexivity.
    - unfold OrderUpdate.log_order, get. rewrite Horder. cbn [rbind].
      rewrite Htruthy, Harray. reflexivity.
    - unfold OrderUpdate.log_order, get. rewrite Horder. cbn [rbind].
      destruct (member order "line_items") as [ | | b | n | s | items | fields];
        try contradiction.
      cbn [truthy isArray elements] in *.
      apply (forEach_stops _ items VNull); [ | exact Hin | reflexivity].
      intros x e. destruct (nullish x); cbn [rbind]; congruence. }
  unfold OrderUpdate.POST, try_catch.
  rewrite (bind_lift_ok _ _ _ _ Hverified). cbn [negb].
  rewrite (bind_lift_ok _ _ _ _ Hparse).
  rewrite (bind_lift_throw _ _ _ _ Hlog). reflexivity.
Qed.

(** The signed deliveries of the JSON text [null] and of an order whose
    [line_items] is a string. *)
Lemma malformed_order_witness :
  OrderUpdate.POST Sample.configured (Sample.parsing VNull) Scenario.shop
    (Scenario.signed VNull) []
  = (Ok (processing_error TypeError), [])
  /\ OrderUpdate.POST Sample.configured
       (Sample.parsing Scenario.order_without_lines) Scenario.shop
       (Scenario.signed Scenario.order_without_lines) []
     = (Ok (processing_error TypeError), []).
Proof.
  split.
  - apply (malformed_order_is_500 Sample.configured (Sample.parsing VNull)
             Scenario.shop (Scenario.signed VNull) VNull []).
    + vm_compute. reflexivity.
    + vm_compute. reflexivity.
    + left. reflexivity.
  - apply (malformed_order_is_500 Sample.configured
             (Sample.parsing Scenario.order_without_lines) Scenario.shop
             (Scenario.signed Scenario.order_without_lines)
             Scenario.order_without_lines []).
    + vm_compute. reflexivity.
    + vm_compute. reflexivity.
    + right. left. repeat split.
Defined.

(** ** Status and body of every answer *)

Ltac shape_known := unfold answer_shape; simpl; auto.

(** X20. In every answer of either handler, status and body go together:
    a success body comes with status 200 and no other, 401 always says
    "Invalid webhook signature" and 400 "Missing cart ID" or "Missing
    order ID", both without details, and an error that carries details
    has status 500. *)
Theorem answers_have_a_fixed_shape :
  forall (env : process_env) (rt : runtime) (net : network)
         (webhook : NextRequest) (sent : list request),
    (exists response sent',
        CartUpdate.POST env rt net webhook sent = (Ok response, sent')
        /\ answer_shape response)
    /\
    (exists response sent',
        OrderUpdate.POST env rt net webhook sent = (Ok response, sent')
        /\ answer_shape response).
Proof.
  intros env rt net webhook sent. split.
  - unfold CartUpdate.POST.
    apply try_catch_returns.
    + repeat yields_step; shape_known.
    + intros e s. eexists. eexists. split; [reflexivity | shape_known].
  - unfold OrderUpdate.POST.
    apply try_catch_returns.
    + repeat yields_step; shape_known.
    + intros e s. eexists. eexists. split; [reflexivity | shape_known].
Qed.

(** ** The order GID of the test route *)

Lemma wrapped_identifier_truthy (v : value) :
  truthy (VStr ("gid://shopify/Order/" ++ ToString v)) = true.
Proof. reflexivity. Qed.

(** X21. The test route's choice of the order GID, for any order object:
    a GID that is returned is never falsy; the error "Unable to determine
    order GID" is thrown exactly when both [admin_graphql_api_id] and
    [id] are falsy; and an [admin_graphql_api_id] that is a non-empty
    string not in gid:// form is used as it is when [id] is falsy. *)
Theorem test_route_orderGid_outcome :
  forall (order : value),
    nullish order = false ->
    (forall gid, TestOrder.orderGid order = Ok gid -> truthy gid = true)
    /\ (TestOrder.orderGid order = Throw (Error "Unable to determine order GID")
        <-> truthy (member order "admin_graphql_api_id") = false
            /\ truthy (member order "id") = false)
    /\ (forall s,
          member order "admin_graphql_api_id" = VStr s ->
          s <> "" ->
          String.prefix "gid://" s = false ->
          truthy (member order "id") = false ->
          TestOrder.orderGid order = Ok (VStr s)).
Proof.
  intros order Horder. unfold TestOrder.orderGid, get. rewrite Horder.
  cbn [rbind].
  destruct (truthy (member order "admin_graphql_api_id")) eqn:Hadmin.
  - destruct (member order "admin_graphql_api_id")
      as [ | | b | n | s | items | fields] eqn:Hvalue;
      try discriminate Hadmin; cbn [rbind].
    1, 2, 4, 5:
      (split; [intros gid H; discriminate H | ]);
      (split; [split; [intros H; discriminate H | intros [H _]; discriminate H] | ]);
      intros s H; discriminate H.
    destruct (String.prefix "gid://" s) eqn:Hprefix; cbn [rbind].
    + rewrite Hadmin.
      split; [intros gid H; injection H as <-; exact Hadmin | ].
      split; [split; [intros H; discriminate H | intros [H _]; discriminate H] | ].
      intros s' H _ Hprefix'. injection H as <-. congruence.
    + destruct (truthy (member order "id")) eqn:Hid.
      * rewrite wrapped_identifier_truthy.
        split; [intros gid H; injection H as <-; reflexivity | ].
        split; [split; [intros H; discriminate H | intros [H _]; discriminate H] | ].
        intros s' _ _ _ H. discriminate H.
      * rewrite Hadmin.
        split; [intros gid H; injection H as <-; exact Hadmin | ].
        split; [split; [intros H; discriminate H | intros [H _]; discriminate H] | ].
        intros s' H _ _ _. injection H as <-. reflexivity.
  - cbn [rbind].
    destruct (truthy (member order "id")) eqn:Hid.
    + rewrite wrapped_identifier_truthy.
      split; [intros gid H; injection H as <-; reflexivity | ].
      split; [split; [intros H; discriminate H | intros [_ H]; discriminate H] | ].
      intros s H Hs. rewrite H in Hadmin. cbn [truthy] in Hadmin.
      rewrite (eqb_nonempty s Hs) in Hadmin. discriminate Hadmin.
    + rewrite Hadmin.
      split; [intros gid H; discriminate H | ].
      split; [split; [intros _; split; reflexivity | reflexivity] | ].
      intros s H Hs. rewrite H in Hadmin. cbn [truthy] in Hadmin.
      rewrite (eqb_nonempty s Hs) in Hadmin. discriminate Hadmin.
Qed.

(** An order without any identifier, and one whose
    [admin_graphql_api_id] is a bare number in a string. *)
Lemma test_route_orderGid_outcome_witness :
  TestOrder.orderGid (VObj [("order_number", VNum 241132)])
  = Throw (Error "Unable to determine order GID")
  /\ TestOrder.orderGid (VObj [("admin_graphql_api_id", VStr "5380452647120")])
     = Ok (VStr "5380452647120").
Proof.
  split.
  - apply (proj1 (proj2 (test_route_orderGid_outcome
                           (VObj [("order_number", VNum 241132)]) eq_refl))).
    split; reflexivity.
  - apply (proj2 (proj2 (test_route_orderGid_outcome
                           (VObj [("admin_graphql_api_id", VStr "5380452647120")])
                           eq_refl))).
    + reflexivity.
    + discriminate.
    + reflexivity.
    + reflexivity.
Defined.

(** ** The first revision of the predicates *)






(** ** No second addition *)



(** ** How the free item is recognised in an order *)








(** ** When the order handler calls the API *)




(** ** The order edit as first written *)

Lemma first_bind_ok {A B} (c : FirstRevision.Edit A) (k : A -> FirstRevision.Edit B)
      sent a sent' :
  c sent = (Ok a, sent') -> FirstRevision.bind c k sent = k a sent'.
Proof. intros H. unfold FirstRevision.bind. rewrite H. reflexivity. Qed.

Lemma first_bind_lift_ok {A B} (r : result A) (k : A -> FirstRevision.Edit B)
      sent a :
  r = Ok a -> FirstRevision.bind (FirstRevision.lift r) k sent = k a sent.
Proof. intros ->. reflexivity. Qed.

(** A complete edit of the first revision, whatever the price call was
    answered with. *)
Lemma first_edit_runs :
  forall (env : process_env) (rt : runtime) (net : FirstRevision.remote)
         (orderId : value) (sent : list FirstRevision.call)
         (began added priced committed editId lineId : value),
    FirstRevision.SHOPIFY_ADMIN_API_KEY env <> "" ->
    FirstRevision.OG_VARIANT_ID env <> "" ->
    first_answered env net (FirstRevision.beginEdit orderId) sent began ->
    OrderUpdate.reports_errors rt began "orderEdit" = Ok false ->
    FirstRevision.read2 began "orderEdit" "id" = Ok editId ->
    first_answered env net
      (FirstRevision.addVariant editId
         ("gid://shopify/ProductVariant/" ++ FirstRevision.OG_VARIANT_ID env) 1)
      (sent ++ firstn 1 (first_edit_calls env orderId editId lineId))%list added ->
    OrderUpdate.reports_errors rt added "orderEditAddVariant" = Ok false ->
    FirstRevision.read3 added "orderEditAddVariant" "calculatedLineItem" "id"
    = Ok lineId ->
    first_answered env net
      (FirstRevision.updateLineItem editId lineId "0.00" "USD")
      (sent ++ firstn 2 (first_edit_calls env orderId editId lineId))%list priced ->
    first_answered env net (FirstRevision.commitEdit editId)
      (sent ++ firstn 3 (first_edit_calls env orderId editId lineId))%list
      committed ->
    OrderUpdate.reports_errors rt committed "orderEditCommit" = Ok false ->
    FirstRevision.addFreeItemToOrder env rt net orderId sent
    = (Ok committed, (sent ++ first_edit_calls env orderId editId lineId)%list).
Proof.
  intros env rt net orderId sent began added priced committed editId lineId
         Hkey Hog Hbegin Hbegan Hedit Hadd Hadded Hline Hprice Hcommit Hcommitted.
  unfold first_answered, first_edit_calls in *. cbn [firstn] in *.
  unfold FirstRevision.addFreeItemToOrder.
  rewrite (eqb_nonempty _ Hkey), (eqb_nonempty _ Hog).
  change (false || false) with false. cbv iota.
  unfold FirstRevision.try_catch.
  rewrite (first_bind_ok _ _ _ _ _ Hbegin).
  rewrite (first_bind_lift_ok _ _ _ _ Hbegan).
  rewrite (first_bind_lift_ok _ _ _ _ Hedit).
  rewrite (first_bind_ok _ _ _ _ _ Hadd).
  rewrite (first_bind_lift_ok _ _ _ _ Hadded).
  rewrite (first_bind_lift_ok _ _ _ _ Hline).
  rewrite <- app_assoc in Hprice. cbn [app] in Hprice.
  rewrite <- app_assoc. cbn [app].
  rewrite (first_bind_ok _ _ _ _ _ Hprice).
  rewrite <- app_assoc in Hcommit. cbn [app] in Hcommit.
  rewrite (first_bind_ok _ _ _ _ _ Hcommit).
  rewrite (first_bind_lift_ok _ _ _ _ Hcommitted).
  reflexivity.
Qed.

(** X26. In the first revision of the order route the outcome of the
    price step is not looked at: once begin and add-variant went through
    and the price call was answered 2xx with any JSON body at all (also
    one that reports errors), the commit is sent, and if it goes through
    addFreeItemToOrder returns the commit response.  The four calls sent
    carry the order identifier as it was received, the edit identifier of
    the begin response, gid://shopify/ProductVariant/<OG_VARIANT_ID> and
    the price 0.00 USD.  The handler of that revision, for a verified
    order with a trigger product, without the free item and with a truthy
    [id], then answers as for any commit response: 200 "Free item added
    to order" when it is truthy. *)
Theorem first_revision_ignores_price_step :
  forall (env : process_env) (rt : runtime) (net : FirstRevision.remote)
         (orderId : value) (sent : list FirstRevision.call)
         (began added priced committed editId lineId : value),
    FirstRevision.SHOPIFY_ADMIN_API_KEY env <> "" ->
    FirstRevision.OG_VARIANT_ID env <> "" ->
    first_answered env net (FirstRevision.beginEdit orderId) sent began ->
    OrderUpdate.reports_errors rt began "orderEdit" = Ok false ->
    FirstRevision.read2 began "orderEdit" "id" = Ok editId ->
    first_answered env net
      (FirstRevision.addVariant editId
         ("gid://shopify/ProductVariant/" ++ FirstRevision.OG_VARIANT_ID env) 1)
      (sent ++ firstn 1 (first_edit_calls env orderId editId lineId))%list added ->
    OrderUpdate.reports_errors rt added "orderEditAddVariant" = Ok false ->
    FirstRevision.read3 added "orderEditAddVariant" "calculatedLineItem" "id"
    = Ok lineId ->
    first_answered env net
      (FirstRevision.updateLineItem editId lineId "0.00" "USD")
      (sent ++ firstn 2 (first_edit_calls env orderId editId lineId))%list priced ->
    first_answered env net (FirstRevision.commitEdit editId)
      (sent ++ firstn 3 (first_edit_calls env orderId editId lineId))%list
      committed ->
    OrderUpdate.reports_errors rt committed "orderEditCommit" = Ok false ->
    FirstRevision.addFreeItemToOrder env rt net orderId sent
    = (Ok committed, (sent ++ first_edit_calls env orderId editId lineId)%list)
    /\
    forall (webhook : NextRequest) (order : value),
      verifyShopifyWebhook env (text webhook) (hmac_header webhook) = Ok true ->
      parse_json rt (text webhook) = Ok order ->
      OrderUpdateInitial.hasTriggerProduct env order = Ok true ->
      OrderUpdateInitial.hasOGPack env order = Ok false ->
      member order "id" = orderId ->
      truthy orderId = true ->
      FirstRevision.POST env rt net webhook sent
      = (Ok (if truthy committed
             then {| status := 200;
                     payload := SuccessBody "Free item added to order" |}
             else {| status := 500;
                     payload := ErrorBody "Failed to add free item to order"
                                  (Some (DetailsValue (VStr "Unknown error"))) |}),
         (sent ++ first_edit_calls env orderId editId lineId)%list).
Proof.
  intros env rt net orderId sent began added priced committed editId lineId
         Hkey Hog Hbegin Hbegan Hedit Hadd Hadded Hline Hprice Hcommit Hcommitted.
  pose proof (first_edit_runs env rt net orderId sent began added priced
                committed editId lineId Hkey Hog Hbegin Hbegan Hedit Hadd Hadded
                Hline Hprice Hcommit Hcommitted) as Hrun.
  split; [exact Hrun | ].
  intros webhook order Hverified Hparse Htrigger Hpack Hid Htruthy.
  assert (Horder : nullish order = false).
  { unfold OrderUpdateInitial.hasTriggerProduct, get in Htrigger.
    destruct (nullish order); [discriminate Htrigger | reflexivity]. }
  assert (Herrors : truthy (member committed "errors") = false).
  { unfold OrderUpdate.reports_errors, get in Hcommitted.
    destruct (nullish committed); [discriminate Hcommitted | ].
    cbn [rbind] in Hcommitted.
    destruct (truthy (member committed "errors"));
      [discriminate Hcommitted | reflexivity]. }
  unfold FirstRevision.POST, FirstRevision.try_catch.
  rewrite (first_bind_lift_ok _ _ _ _ Hverified). cbn [negb].
  rewrite (first_bind_lift_ok _ _ _ _ Hparse).
  rewrite (first_bind_lift_ok _ _ _ _ (get_of_item order "line_items" Horder)).
  rewrite (first_bind_lift_ok _ _ _ _ Htrigger).
  rewrite Hpack. cbn [rbind negb].
  rewrite (first_bind_lift_ok _ _ _ true eq_refl).
  rewrite (first_bind_lift_ok _ _ _ _ (get_of_item order "id" Horder)).
  rewrite Hid, Htruthy. cbn [negb].
  rewrite (first_bind_ok _ _ _ _ _ Hrun).
  rewrite Herrors, orb_false_r.
  destruct (truthy committed) eqn:Hresult; cbn [negb].
  - reflexivity.
  - unfold FirstRevision.ret.
    assert (Hnone : get_opt committed "errors" = VUndefined \/
                    truthy (get_opt committed "errors") = false).
    { right. unfold get_opt. destruct (nullish committed); [reflexivity | exact Herrors]. }
    unfold js_or. destruct Hnone as [-> | ->]; reflexivity.
Qed.

(** A remote side that refuses the price step: the refusal reports
    errors, the edit is committed all the same, and the handler answers
    the signed sample order with 200. *)
Lemma first_revision_ignores_price_step_witness :
  OrderUpdate.reports_errors (Sample.parsing Sample.order) Scenario.price_refused
    "orderEditUpdateLineItem" = Ok true
  /\ FirstRevision.addFreeItemToOrder Sample.configured (Sample.parsing Sample.order)
       Scenario.shop_refusing_price (VNum 5380452647120) []
     = (Ok Scenario.committed,
        first_edit_calls Sample.configured (VNum 5380452647120)
          (VStr "gid://shopify/CalculatedOrder/7")
          (VStr "gid://shopify/CalculatedLineItem/9"))
  /\ FirstRevision.POST Sample.configured (Sample.parsing Sample.order)
       Scenario.shop_refusing_price Sample.order_delivery []
     = (Ok {| status := 200; payload := SuccessBody "Free item added to order" |},
        first_edit_calls Sample.configured (VNum 5380452647120)
          (VStr "gid://shopify/CalculatedOrder/7")
          (VStr "gid://shopify/CalculatedLineItem/9")).
Proof.
  split; [reflexivity | ].
  assert (Hkey : FirstRevision.SHOPIFY_ADMIN_API_KEY Sample.configured <> "")
    by (vm_compute; discriminate).
  assert (Hog : FirstRevision.OG_VARIANT_ID Sample.configured <> "")
    by (vm_compute; discriminate).
  destruct (first_revision_ignores_price_step Sample.configured
              (Sample.parsing Sample.order) Scenario.shop_refusing_price
              (VNum 5380452647120) []
              Scenario.edit_begun Scenario.added Scenario.price_refused
              Scenario.committed
              (VStr "gid://shopify/CalculatedOrder/7")
              (VStr "gid://shopify/CalculatedLineItem/9")
              Hkey Hog eq_refl eq_refl eq_refl eq_refl eq_refl eq_refl eq_refl
              eq_refl eq_refl)
    as [Hrun Hpost].
  split; [exact Hrun | ].
  apply (Hpost Sample.order_delivery Sample.order).
  - vm_compute. reflexivity.
  - vm_compute. reflexivity.
  - reflexivity.
  - reflexivity.
  - reflexivity.
  - reflexivity.
Defined.
